(** * CMIS CDB firmware-update channel: a shallow embedding of
      [sonic_platform_base/sonic_xcvr/api/public/cmisCDB.py]

    Bytes are integers in [0, 256); a [bytearray] or [bytes] object is a
    [list Z].  Python integers are unbounded, so [Z] with [Z.shiftr],
    [Z.land] and floor division [Z.div] is their exact counterpart. *)

From Stdlib Require Import ZArith List Bool Lia.
From Stdlib Require String.
Import ListNotations.
Open Scope Z_scope.

(** ** Module constants (cmisCDB.py, lines 6-12) *)

Definition LPLPAGE : Z := 0x9f.
Definition CDB_RPL_OFFSET : Z := 136.
Definition CDB_WRITE_MSG_START : Z := 130.
Definition PAGE_LENGTH : Z := 128.
Definition INIT_OFFSET : Z := 128.
Definition CMDLEN : Z := 2.
Definition MAX_TRY : Z := 3.

(** ** Outcomes of Python code

    A call returns a value, raises an exception, or (for the busy-wait
    loop only) is still running when the iteration budget is spent. *)

Inductive exn : Type :=
| AssertionError
| ValueError
| IndexError
| ZeroDivisionError
| StructError
| UnboundLocalError.

Inductive result (A : Type) : Type :=
| Ok (a : A)
| Raise (e : exn)
| Diverge.

Arguments Ok {A} a.
Arguments Raise {A} e.
Arguments Diverge {A}.

Definition rbind {A B : Type} (r : result A) (k : A -> result B) : result B :=
  match r with
  | Ok a => k a
  | Raise e => Raise e
  | Diverge => Diverge
  end.

(** ** Byte sequences *)

Definition is_byte (v : Z) : Prop := 0 <= v < 256.

Definition len (l : list Z) : Z := Z.of_nat (length l).

(** [sum_bytes] is the accumulation loop [for byte in cmd: checksum += byte]. *)
Definition sum_bytes (cmd : list Z) : Z := fold_left Z.add cmd 0.

Fixpoint list_update (l : list Z) (n : nat) (v : Z) : list Z :=
  match l, n with
  | [], _ => []
  | _ :: t, O => v :: t
  | x :: t, S n' => x :: list_update t n' v
  end.

(** [cmd[i] = v] on a bytearray: a negative index counts from the end, an
    index out of range raises IndexError, a value outside range(0, 256)
    raises ValueError. *)
Definition bytearray_setitem (cmd : list Z) (i : Z) (v : Z) : result (list Z) :=
  let n := len cmd in
  let j := if i <? 0 then i + n else i in
  if (j <? 0) || (n <=? j) then Raise IndexError
  else if (v <? 0) || (256 <=? v) then Raise ValueError
  else Ok (list_update cmd (Z.to_nat j) v).

(** [data[a:b]] for non-negative [a] and [b]: the slice is clipped to the
    sequence, never an error. *)
Definition slice (data : list Z) (a b : Z) : list Z :=
  firstn (Z.to_nat (b - a)) (skipn (Z.to_nat a) data).

(** [data[a:]] for non-negative [a]. *)
Definition slice_from (data : list Z) (a : Z) : list Z :=
  skipn (Z.to_nat a) data.

(** [data.ljust(width, b'\x00')]: pads on the right up to [width]; a longer
    [data] is returned unchanged. *)
Definition ljust (data : list Z) (width : Z) (fill : Z) : list Z :=
  data ++ repeat fill (Z.to_nat (width - len data)).

(** [struct.pack('>L', addr)]: four big-endian bytes; struct.error when the
    argument is not an unsigned 32-bit value. *)
Definition struct_pack_BE_L (addr : Z) : result (list Z) :=
  if (addr <? 0) || (2 ^ 32 <=? addr) then Raise StructError
  else Ok [Z.land (Z.shiftr addr 24) 0xff; Z.land (Z.shiftr addr 16) 0xff;
           Z.land (Z.shiftr addr 8) 0xff; Z.land addr 0xff].

(** Big-endian value of four bytes, used to read fields back. *)
Definition be32 (b0 b1 b2 b3 : Z) : Z :=
  b0 * 2 ^ 24 + b1 * 2 ^ 16 + b2 * 2 ^ 8 + b3.

(** ** Frame codec: [cdb_chkcode] (lines 55-62) *)

Definition cdb_chkcode (cmd : list Z) : Z :=
  0xff - Z.land (sum_bytes cmd) 0xff.

(** The fixed checksum slot [133 - INIT_OFFSET] of every command. *)
Definition CHK_SLOT : Z := 133 - INIT_OFFSET.

(** [cmd[133-INIT_OFFSET] = self.cdb_chkcode(cmd)] *)
Definition stamp (cmd : list Z) : result (list Z) :=
  bytearray_setitem cmd CHK_SLOT (cdb_chkcode cmd).

(** Frame of the query-status command (lines 135-136). *)
Definition cmd0000h_frame : result (list Z) :=
  stamp [0x00; 0x00; 0x00; 0x00; 0x02; 0x00; 0x00; 0x00; 0x00; 0x10].

Declare Scope result_scope.
Delimit Scope result_scope with result.
Notation "'let!' x ':=' c 'in' k" :=
  (rbind c (fun x => k))
  (at level 10, x name, c at level 100, k at level 200) : result_scope.

(** Frame of the start-download command (lines 210-217). *)
Definition cmd0101h_frame (startLPLsize : Z) (header : list Z) (imagesize : Z)
  : result (list Z) :=
  (let! cmd := bytearray_setitem
                 [0x01; 0x01; 0x00; 0x00; 0x00; 0x00; 0x00; 0x00;
                  0x00; 0x00; 0x00; 0x00; 0x00; 0x00; 0x00; 0x00]
                 (132 - INIT_OFFSET) (startLPLsize + 8) in
   let! cmd := bytearray_setitem cmd (136 - INIT_OFFSET)
                 (Z.land (Z.shiftr imagesize 24) 0xff) in
   let! cmd := bytearray_setitem cmd (137 - INIT_OFFSET)
                 (Z.land (Z.shiftr imagesize 16) 0xff) in
   let! cmd := bytearray_setitem cmd (138 - INIT_OFFSET)
                 (Z.land (Z.shiftr imagesize 8) 0xff) in
   let! cmd := bytearray_setitem cmd (139 - INIT_OFFSET)
                 (Z.land (Z.shiftr imagesize 0) 0xff) in
   stamp (cmd ++ header))%result.

(** Frame of the LPL download command (lines 247-257). *)
Definition cmd0103h_frame (addr : Z) (data : list Z) : result (list Z) :=
  (let lpl_len := len data + 4 in
   let! cmd := bytearray_setitem
                 [0x01; 0x03; 0x00; 0x00; 0x00; 0x00; 0x00; 0x00;
                  0x00; 0x00; 0x00; 0x00]
                 (132 - INIT_OFFSET) (Z.land lpl_len 0xff) in
   let! cmd := bytearray_setitem cmd (136 - INIT_OFFSET)
                 (Z.land (Z.shiftr addr 24) 0xff) in
   let! cmd := bytearray_setitem cmd (137 - INIT_OFFSET)
                 (Z.land (Z.shiftr addr 16) 0xff) in
   let! cmd := bytearray_setitem cmd (138 - INIT_OFFSET)
                 (Z.land (Z.shiftr addr 8) 0xff) in
   let! cmd := bytearray_setitem cmd (139 - INIT_OFFSET)
                 (Z.land (Z.shiftr addr 0) 0xff) in
   let paddedPayload := ljust data 116 0x00 in
   stamp (cmd ++ paddedPayload))%result.

(** Frame of the EPL transfer command (lines 300-303). *)
Definition cmd0104h_frame (addr : Z) : result (list Z) :=
  (let! addr_byte := struct_pack_BE_L addr in
   stamp ([0x01; 0x04; 0x08; 0x00; 0x04; 0x00; 0x00; 0x00] ++ addr_byte))%result.

(** Frame of the run-image command (lines 336-339). *)
Definition cmd0109h_frame (mode : Z) : result (list Z) :=
  (let! cmd := bytearray_setitem
                 [0x01; 0x09; 0x00; 0x00; 0x04; 0x00; 0x00; 0x00;
                  0x00; 0x00; 0x00; 0x00]
                 (137 - INIT_OFFSET) mode in
   let! cmd := bytearray_setitem cmd (138 - INIT_OFFSET) 2 in
   stamp cmd)%result.

(** ** The register/memory layer

    [xcvr_eeprom] is a collaborator outside this module.  Its answers are
    given by a [Device]: a function of everything that happened on the
    channel so far, so that a device may react to the commands written to
    it.  The channel state threaded through the code is the trace of
    events, oldest first. *)

Inductive field : Type :=
| MODULE_FIRMWARE_FAULT_INFO
| CDB1_STATUS
| CDB_RPL_LENGTH
| CDB_RPL_CHKCODE.

Inductive message : Type :=
| MsgStatusFail (status : Z)   (* 'CDB1 status: Fail. CDB1 status %d' *)
| MsgImageSize (imagesize : Z) (* "Image size is {}" *)
| MsgWriteTime.                (* '2048B write time:  %.2fs' *)

Inductive event : Type :=
| EvRead (f : field) (v : Z)
| EvReadFlexible (offset length : Z) (v : list Z)
| EvWriteFlexible (offset length : Z) (data : list Z)
| EvSleep (secs : Z)
| EvPrint (m : message).

Definition trace : Type := list event.

Record Device : Type := {
  dev_read : trace -> field -> Z;
  dev_read_flexible : trace -> Z -> Z -> list Z
}.

(** The monad of the channel: a computation extends the trace and returns,
    raises or diverges; the trace is kept in all three cases. *)
Definition M (A : Type) : Type := trace -> trace * result A.

Definition ret {A : Type} (a : A) : M A := fun h => (h, Ok a).

Definition bind {A B : Type} (m : M A) (k : A -> M B) : M B :=
  fun h =>
    match m h with
    | (h', Ok a) => k a h'
    | (h', Raise e) => (h', Raise e)
    | (h', Diverge) => (h', Diverge)
    end.

Definition lift {A : Type} (r : result A) : M A := fun h => (h, r).

Definition emit (e : event) : M unit := fun h => (h ++ [e], Ok tt).

Declare Scope cdb_scope.
Delimit Scope cdb_scope with cdb.
Notation "x <- c ;; k" := (bind c (fun x => k))
  (at level 100, c at next level, right associativity) : cdb_scope.
Notation "c ;; k" := (bind c (fun _ => k))
  (at level 100, right associativity) : cdb_scope.

(** [for x in xs: body(x)] *)
Fixpoint for_each {A : Type} (xs : list A) (body : A -> M unit) : M unit :=
  match xs with
  | [] => ret tt
  | x :: rest => (body x ;; for_each rest body)%cdb
  end.

(** [range(n)] *)
Definition range (n : Z) : list Z := map Z.of_nat (seq 0 (Z.to_nat n)).

(** [range(0, stop, step)]; a zero step never reaches this point in the
    code, a negative step gives the empty range. *)
Definition range_step (stop step : Z) : list Z :=
  if 0 <? step
  then map (fun k => Z.of_nat k * step) (seq 0 (Z.to_nat ((stop + step - 1) / step)))
  else [].

(** [bool(z)] on an integer. *)
Definition py_bool (z : Z) : bool := negb (z =? 0).

Definition time_sleep (secs : Z) : M unit := emit (EvSleep secs).
Definition print (m : message) : M unit := emit (EvPrint m).

Section Channel.

Variable dev : Device.

Definition xcvr_read (f : field) : M Z :=
  fun h => let v := dev_read dev h f in (h ++ [EvRead f v], Ok v).

Definition read_flexible (offset length : Z) : M (list Z) :=
  fun h => let v := dev_read_flexible dev h offset length in
           (h ++ [EvReadFlexible offset length v], Ok v).

Definition write_flexible (offset length : Z) (data : list Z) : M unit :=
  emit (EvWriteFlexible offset length data).

(** [cdb1_chkflags] (lines 44-53) *)
Definition cdb1_chkflags : M bool :=
  (status <- xcvr_read MODULE_FIRMWARE_FAULT_INFO ;;
   let datapath_firmware_fault := py_bool (Z.land (Z.shiftr status 2) 0x1) in
   let module_firmware_fault := py_bool (Z.land (Z.shiftr status 1) 0x1) in
   let cdb1_command_complete := py_bool (Z.land (Z.shiftr status 6) 0x1) in
   if datapath_firmware_fault then lift (Raise AssertionError)
   else if module_firmware_fault then lift (Raise AssertionError)
   else if cdb1_command_complete then ret false
   else ret true)%cdb.

(** The [while is_busy:] loop of [cdb1_chkstatus] (lines 112-114).  The
    body sleeps and recomputes [is_busy] from the local [status]; [fuel]
    bounds the iterations that are followed. *)
Fixpoint busy_wait (fuel : nat) (status : Z) (is_busy : bool) : M Z :=
  match fuel with
  | O => lift Diverge
  | S fuel' =>
      if is_busy
      then (time_sleep 1 ;;
            let is_busy' := py_bool (Z.land (Z.shiftr status 7) 0x1) in
            busy_wait fuel' status is_busy')%cdb
      else ret status
  end.

(** [cdb1_chkstatus] (lines 110-115) *)
Definition cdb1_chkstatus (fuel : nat) : M Z :=
  (status <- xcvr_read CDB1_STATUS ;;
   let is_busy := py_bool (Z.land (Z.shiftr status 7) 0x1) in
   busy_wait fuel status is_busy)%cdb.

(** [write_cdb] (lines 121-122) *)
Definition write_cdb (cmd : list Z) : M unit :=
  (write_flexible (LPLPAGE * PAGE_LENGTH + CDB_WRITE_MSG_START)
                  (len cmd - CMDLEN) (slice_from cmd CMDLEN) ;;
   write_flexible (LPLPAGE * PAGE_LENGTH + INIT_OFFSET)
                  CMDLEN (slice cmd 0 CMDLEN))%cdb.

(** [read_cdb] (lines 128-131) *)
Definition read_cdb : M (Z * Z * list Z) :=
  (rpllen <- xcvr_read CDB_RPL_LENGTH ;;
   rpl_chkcode <- xcvr_read CDB_RPL_CHKCODE ;;
   rpl <- read_flexible (LPLPAGE * PAGE_LENGTH + CDB_RPL_OFFSET) rpllen ;;
   ret (rpllen, rpl_chkcode, rpl))%cdb.

(** The retry loop that every command repeats verbatim
    (e.g. lines 137-145):

      for attemp in range(MAX_TRY):
          self.write_cdb(cmd); time.sleep(2)
          status = self.cdb1_chkstatus()
          if (status != 0x1): print(...); continue
          else: break

    [tries] is the number of iterations left and [status] the local
    variable, unbound before the first iteration. *)
Fixpoint cdb_attempts (fuel : nat) (tries : nat) (cmd : list Z)
         (status : option Z) : M (option Z) :=
  match tries with
  | O => ret status
  | S tries' =>
      (write_cdb cmd ;;
       time_sleep 2 ;;
       status <- cdb1_chkstatus fuel ;;
       if negb (status =? 0x1)
       then (print (MsgStatusFail status) ;;
             cdb_attempts fuel tries' cmd (Some status))
       else ret (Some status))%cdb
  end.

Definition retry_loop (fuel : nat) (cmd : list Z) : M (option Z) :=
  cdb_attempts fuel (Z.to_nat MAX_TRY) cmd None.

(** Reading the local [status] after the loop. *)
Definition local_status (status : option Z) : M Z :=
  match status with
  | Some s => ret s
  | None => lift (Raise UnboundLocalError)
  end.

(** Commands that end in [return self.read_cdb()]. *)
Definition reply_command (fuel : nat) (frame : result (list Z))
  : M (Z * Z * list Z) :=
  (cmd <- lift frame ;;
   retry_loop fuel cmd ;;
   read_cdb)%cdb.

(** Commands that end in [return status]. *)
Definition status_command (fuel : nat) (frame : result (list Z)) : M Z :=
  (cmd <- lift frame ;;
   status <- retry_loop fuel cmd ;;
   local_status status)%cdb.

(** Query status (lines 134-146) *)
Definition cmd0000h (fuel : nat) : M (Z * Z * list Z) :=
  reply_command fuel cmd0000h_frame.

(** Enter password (lines 149-161) *)
Definition cmd0001h (fuel : nat) : M (Z * Z * list Z) :=
  reply_command fuel
    (stamp [0x00; 0x01; 0x00; 0x00; 0x04; 0x00; 0x00; 0x00;
            0x00; 0x00; 0x10; 0x11]).

(** Lines 163-175 *)
Definition cmd0040h (fuel : nat) : M (Z * Z * list Z) :=
  reply_command fuel (stamp [0x00; 0x40; 0x00; 0x00; 0x00; 0x00; 0x00; 0x00]).

(** Firmware update features supported (lines 178-190) *)
Definition cmd0041h (fuel : nat) : M (Z * Z * list Z) :=
  reply_command fuel (stamp [0x00; 0x41; 0x00; 0x00; 0x00; 0x00; 0x00; 0x00]).

(** Get FW info (lines 193-205) *)
Definition cmd0100h (fuel : nat) : M (Z * Z * list Z) :=
  reply_command fuel (stamp [0x01; 0x00; 0x00; 0x00; 0x00; 0x00; 0x00; 0x00]).

(** Start FW download (lines 208-227) *)
Definition cmd0101h (fuel : nat) (startLPLsize : Z) (header : list Z)
           (imagesize : Z) : M Z :=
  (print (MsgImageSize imagesize) ;;
   status_command fuel (cmd0101h_frame startLPLsize header imagesize))%cdb.

(** Abort FW download (lines 230-242) *)
Definition cmd0102h (fuel : nat) : M Z :=
  status_command fuel (stamp [0x01; 0x02; 0x00; 0x00; 0x00; 0x00; 0x00; 0x00]).

(** Download FW with LPL (lines 245-267) *)
Definition cmd0103h (fuel : nat) (addr : Z) (data : list Z) : M Z :=
  status_command fuel (cmd0103h_frame addr data).

(** The staging half of [cmd0104h] (lines 271-297). *)
Definition cmd0104h_stage (data : list Z) (autopaging_flag : bool)
           (writelength : Z) : M unit :=
  let epl_len := 2048 in
  if negb autopaging_flag
  then
    let pages := epl_len / PAGE_LENGTH in
    let pages := if negb (epl_len mod PAGE_LENGTH =? 0) then pages + 1 else pages in
    for_each (range pages) (fun pageoffset =>
      let next_page := 0xa0 + pageoffset in
      if PAGE_LENGTH * (pageoffset + 1) <=? epl_len
      then
        let datachunk := slice data (PAGE_LENGTH * pageoffset)
                                    (PAGE_LENGTH * (pageoffset + 1)) in
        write_flexible (next_page * PAGE_LENGTH + INIT_OFFSET) PAGE_LENGTH datachunk
      else
        let datachunk := slice_from data (INIT_OFFSET * pageoffset) in
        write_flexible (next_page * PAGE_LENGTH + INIT_OFFSET) (len datachunk) datachunk)
  else
    if writelength =? 0 then lift (Raise ZeroDivisionError)
    else
      for_each (range_step epl_len writelength) (fun offset =>
        if offset + writelength <=? epl_len
        then
          let datachunk := slice data offset (offset + writelength) in
          write_flexible (0xA0 * PAGE_LENGTH + offset + INIT_OFFSET) writelength datachunk
        else
          let datachunk := slice_from data offset in
          write_flexible (0xA0 * PAGE_LENGTH + offset + INIT_OFFSET) (len datachunk) datachunk).

(** Download FW with EPL (lines 270-313).  The two [time.time()] readings
    only feed the printed duration. *)
Definition cmd0104h (fuel : nat) (addr : Z) (data : list Z)
           (autopaging_flag : bool) (writelength : Z) : M Z :=
  (cmd0104h_stage data autopaging_flag writelength ;;
   print MsgWriteTime ;;
   status_command fuel (cmd0104h_frame addr))%cdb.

(** FW download complete (lines 315-327) *)
Definition cmd0107h (fuel : nat) : M Z :=
  status_command fuel (stamp [0x01; 0x07; 0x00; 0x00; 0x00; 0x00; 0x00; 0x00]).

(** Run FW image (lines 335-349) *)
Definition cmd0109h (fuel : nat) (mode : Z) : M Z :=
  status_command fuel (cmd0109h_frame mode).

(** Commit FW image (lines 352-364) *)
Definition cmd010Ah (fuel : nat) : M Z :=
  status_command fuel (stamp [0x01; 0x0A; 0x00; 0x00; 0x00; 0x00; 0x00; 0x00]).

End Channel.

(** ** The command operations as one family *)

Inductive command : Type :=
| Cmd0000h
| Cmd0001h
| Cmd0040h
| Cmd0041h
| Cmd0100h
| Cmd0101h (startLPLsize : Z) (header : list Z) (imagesize : Z)
| Cmd0102h
| Cmd0103h (addr : Z) (data : list Z)
| Cmd0104h (addr : Z) (data : list Z) (autopaging_flag : bool) (writelength : Z)
| Cmd0107h
| Cmd0109h (mode : Z)
| Cmd010Ah.

(** What a command hands back: the reply triple of [read_cdb], or the local
    [status]. *)
Inductive returned : Type :=
| RetReply (reply : Z * Z * list Z)
| RetStatus (status : Z).

Definition reply_of (m : M (Z * Z * list Z)) : M returned :=
  (r <- m ;; ret (RetReply r))%cdb.

Definition status_of (m : M Z) : M returned :=
  (s <- m ;; ret (RetStatus s))%cdb.

Definition run (dev : Device) (fuel : nat) (c : command) : M returned :=
  match c with
  | Cmd0000h => reply_of (cmd0000h dev fuel)
  | Cmd0001h => reply_of (cmd0001h dev fuel)
  | Cmd0040h => reply_of (cmd0040h dev fuel)
  | Cmd0041h => reply_of (cmd0041h dev fuel)
  | Cmd0100h => reply_of (cmd0100h dev fuel)
  | Cmd0101h startLPLsize header imagesize =>
      status_of (cmd0101h dev fuel startLPLsize header imagesize)
  | Cmd0102h => status_of (cmd0102h dev fuel)
  | Cmd0103h addr data => status_of (cmd0103h dev fuel addr data)
  | Cmd0104h addr data autopaging_flag writelength =>
      status_of (cmd0104h dev fuel addr data autopaging_flag writelength)
  | Cmd0107h => status_of (cmd0107h dev fuel)
  | Cmd0109h mode => status_of (cmd0109h dev fuel mode)
  | Cmd010Ah => status_of (cmd010Ah dev fuel)
  end.

(** The three parts in which the commands differ: what they do before the
    frame exists, the frame, and what they return. *)
Definition prelude_of (c : command) : M unit :=
  match c with
  | Cmd0101h _ _ imagesize => print (MsgImageSize imagesize)
  | Cmd0104h _ data autopaging_flag writelength =>
      (cmd0104h_stage data autopaging_flag writelength ;; print MsgWriteTime)%cdb
  | _ => ret tt
  end.

Definition frame_of (c : command) : result (list Z) :=
  match c with
  | Cmd0000h => cmd0000h_frame
  | Cmd0001h => stamp [0x00; 0x01; 0x00; 0x00; 0x04; 0x00; 0x00; 0x00;
                       0x00; 0x00; 0x10; 0x11]
  | Cmd0040h => stamp [0x00; 0x40; 0x00; 0x00; 0x00; 0x00; 0x00; 0x00]
  | Cmd0041h => stamp [0x00; 0x41; 0x00; 0x00; 0x00; 0x00; 0x00; 0x00]
  | Cmd0100h => stamp [0x01; 0x00; 0x00; 0x00; 0x00; 0x00; 0x00; 0x00]
  | Cmd0101h startLPLsize header imagesize =>
      cmd0101h_frame startLPLsize header imagesize
  | Cmd0102h => stamp [0x01; 0x02; 0x00; 0x00; 0x00; 0x00; 0x00; 0x00]
  | Cmd0103h addr data => cmd0103h_frame addr data
  | Cmd0104h addr _ _ _ => cmd0104h_frame addr
  | Cmd0107h => stamp [0x01; 0x07; 0x00; 0x00; 0x00; 0x00; 0x00; 0x00]
  | Cmd0109h mode => cmd0109h_frame mode
  | Cmd010Ah => stamp [0x01; 0x0A; 0x00; 0x00; 0x00; 0x00; 0x00; 0x00]
  end.

Definition returns_reply (c : command) : bool :=
  match c with
  | Cmd0000h | Cmd0001h | Cmd0040h | Cmd0041h | Cmd0100h => true
  | _ => false
  end.

(** The common shape of a command. *)
Definition envelope (dev : Device) (fuel : nat) (c : command) : M returned :=
  (prelude_of c ;;
   cmd <- lift (frame_of c) ;;
   status <- retry_loop dev fuel cmd ;;
   if returns_reply c
   then reply_of (read_cdb dev)
   else status_of (local_status status))%cdb.

(** The device never answers a status with the busy bit set. *)
Definition never_busy (dev : Device) : Prop :=
  forall h, Z.testbit (dev_read dev h CDB1_STATUS) 7 = false.

(** The device never answers the success status. *)
Definition never_success (dev : Device) : Prop :=
  forall h, dev_read dev h CDB1_STATUS <> 0x1.

(** ** Scripted devices for concrete runs

    The [k]-th read of the status register answers the [k]-th entry of
    [statuses] ([default] afterwards); the other registers are constant. *)

Definition is_status_read (e : event) : bool :=
  match e with
  | EvRead CDB1_STATUS _ => true
  | _ => false
  end.

Definition status_reads (h : trace) : nat := length (filter is_status_read h).

Definition scripted_device (statuses : list Z) (default : Z)
           (fault rpllen rpl_chkcode : Z) (rpl : list Z) : Device :=
  {| dev_read h f :=
       match f with
       | CDB1_STATUS => nth (status_reads h) statuses default
       | MODULE_FIRMWARE_FAULT_INFO => fault
       | CDB_RPL_LENGTH => rpllen
       | CDB_RPL_CHKCODE => rpl_chkcode
       end;
     dev_read_flexible h offset length := firstn (Z.to_nat length) rpl |}.

(** The status register answers busy (0x81) once and idle (0x01) from the
    second read on. *)
Definition busy_once : Device := scripted_device [0x81] 0x01 0 0 0 [].

(** A device whose status register always reads [status], with a two-byte
    reply. *)
Definition constant_device (status : Z) : Device :=
  scripted_device [] status 0 2 0x5A [0xDE; 0xAD].

(** ** Vocabulary for traces *)

(** One attempt is armed by the write of the opcode at the trigger offset. *)
Definition is_trigger_write (e : event) : bool :=
  match e with
  | EvWriteFlexible offset _ _ => offset =? LPLPAGE * PAGE_LENGTH + INIT_OFFSET
  | _ => false
  end.

(** The number of attempts in a trace. *)
Definition attempts_in (l : trace) : nat :=
  length (filter is_trigger_write l).

Definition not_trigger (e : event) : Prop := is_trigger_write e = false.

Definition is_write (e : event) : bool :=
  match e with
  | EvWriteFlexible _ _ _ => true
  | _ => false
  end.

(** An event that writes nothing to the device. *)
Definition quiet (e : event) : Prop := is_write e = false.

(** A write of the command channel: payload or trigger offset of page 0x9f. *)
Definition lpl_only (e : event) : Prop :=
  match e with
  | EvWriteFlexible offset _ _ =>
      offset = LPLPAGE * PAGE_LENGTH + CDB_WRITE_MSG_START \/
      offset = LPLPAGE * PAGE_LENGTH + INIT_OFFSET
  | _ => True
  end.

(** The status most recently read in a trace. *)
Definition last_status (l : trace) : option Z :=
  fold_left (fun acc e => match e with
                          | EvRead CDB1_STATUS v => Some v
                          | _ => acc
                          end) l None.

(** The events of one attempt up to the poll: payload write, opcode write,
    settle delay. *)
Definition attempt_prefix (cmd : list Z) : trace :=
  [EvWriteFlexible (LPLPAGE * PAGE_LENGTH + CDB_WRITE_MSG_START)
                   (len cmd - CMDLEN) (slice_from cmd CMDLEN);
   EvWriteFlexible (LPLPAGE * PAGE_LENGTH + INIT_OFFSET)
                   CMDLEN (slice cmd 0 CMDLEN);
   EvSleep 2].

(** The events of an attempt whose poll returned [s], not 0x01. *)
Definition failed_attempt (cmd : list Z) (s : Z) : trace :=
  attempt_prefix cmd ++ [EvRead CDB1_STATUS s; EvPrint (MsgStatusFail s)].

(** The same events written out on the frame itself: the payload
    [cmd[2:]] to page 0x9f byte 130, the two bytes [cmd[:2]] to page 0x9f
    byte 128, and the settle delay of 2 seconds. *)
Definition sent_frame (cmd : list Z) : trace :=
  [EvWriteFlexible (0x9f * 128 + 130) (len cmd - 2) (skipn 2 cmd);
   EvWriteFlexible (0x9f * 128 + 128) 2 (firstn 2 cmd);
   EvSleep 2].

(** A poll that returned [s] and was reported as a failure. *)
Definition failed_poll (s : Z) : trace :=
  [EvRead CDB1_STATUS s; EvPrint (MsgStatusFail s)].

(** The attempts that failed with the statuses [fails], one after the
    other. *)
Definition failed_attempts (cmd : list Z) (fails : list Z) : trace :=
  concat (map (fun s => sent_frame cmd ++ failed_poll s) fails).

(** The statuses [fails] are the answers of the device: the one after the
    failed attempts [pre] is what the status register reads once the frame
    has been sent again, starting from the trace [h0]. *)
Definition answered_by (dev : Device) (h0 : trace) (cmd : list Z)
           (fails : list Z) : Prop :=
  forall pre s post,
    fails = pre ++ s :: post ->
    dev_read dev (h0 ++ failed_attempts cmd pre ++ sent_frame cmd) CDB1_STATUS = s.

(** The write of page [0xA0 + i] in fixed-paging mode. *)
Definition page_write (data : list Z) (i : Z) : event :=
  EvWriteFlexible ((0xA0 + i) * 128 + 128) 128
                  (slice data (128 * i) (128 * (i + 1))).

(** The write of one section in auto-paging mode. *)
Definition section_write (data : list Z) (writelength offset : Z) : event :=
  if offset + writelength <=? 2048
  then EvWriteFlexible (0xA0 * PAGE_LENGTH + offset + INIT_OFFSET) writelength
                       (slice data offset (offset + writelength))
  else EvWriteFlexible (0xA0 * PAGE_LENGTH + offset + INIT_OFFSET)
                       (len (slice_from data offset)) (slice_from data offset).

(** A write addressed inside the CDB window: its start offset lies in the
    upper halves of pages 0x9f (command and reply) to 0xAF (EPL staging).
    Only the start of the write is bounded, not its extent. *)
Definition starts_in_cdb_window (e : event) : Prop :=
  match e with
  | EvWriteFlexible offset _ _ =>
      LPLPAGE * PAGE_LENGTH + INIT_OFFSET <= offset < 0xB0 * PAGE_LENGTH + INIT_OFFSET
  | _ => True
  end.

(** The bytes handed to [write_flexible] along a trace, in order. *)
Definition written_bytes (l : trace) : list Z :=
  flat_map (fun e => match e with
                     | EvWriteFlexible _ _ data => data
                     | _ => []
                     end) l.

(** * Register fields: [sonic_xcvr/fields/xcvr_field.py]

    The fields through which the register layer decodes and encodes the
    bytes of the memory map. *)

(** ** [RegBitField] (lines 70-98) *)

Record RegBitField : Type := {
  bit_name : String.string;
  bitpos : Z;
  bit_ro : bool;
  bit_offset : option Z
}.

(** [RegBitField.__init__] (lines 77-80): [assert bitpos < 64]. *)
Definition RegBitField_init (name : String.string) (pos : Z) (ro : bool)
           (offset : option Z) : result RegBitField :=
  if pos <? 64
  then Ok {| bit_name := name; bitpos := pos; bit_ro := ro; bit_offset := offset |}
  else Raise AssertionError.

(** [RegBitField.decode] (line 89).  An empty [raw_data] has no item 0; a
    shift by a negative count raises ValueError. *)
Definition RegBitField_decode (f : RegBitField) (raw_data : list Z) : result bool :=
  match raw_data with
  | [] => Raise IndexError
  | b :: _ =>
      if bitpos f <? 0 then Raise ValueError
      else Ok (py_bool (Z.land (Z.shiftr b (bitpos f)) 1))
  end.

(** [RegBitField.encode] (lines 92-98); [raw_state] defaults to None. *)
Definition RegBitField_encode (f : RegBitField) (val : bool)
           (raw_state : option (list Z)) : result (list Z) :=
  match raw_state with
  | None => Raise AssertionError
  | Some state =>
      if bit_ro f then Raise AssertionError
      else
        match state with
        | [] => Raise IndexError
        | curr_state :: _ =>
            if bitpos f <? 0 then Raise ValueError
            else
              let curr_state :=
                if val
                then Z.lor curr_state (Z.shiftl 1 (bitpos f))
                else Z.land curr_state (Z.lnot (Z.shiftl 1 (bitpos f))) in
              if (curr_state <? 0) || (256 <=? curr_state)
              then Raise ValueError
              else Ok [curr_state]
        end
  end.

(** ** [RegField] (lines 101-130) *)

Record RegField : Type := {
  reg_name : String.string;
  reg_offset : Z;
  reg_ro : bool;
  reg_fields : list RegBitField;
  reg_size : Z;
  start_bitpos : Z
}.

(** [RegField._update_bit_offsets] (lines 112-116): returns the bit fields
    with their offsets set and the new [start_bitpos]. *)
Fixpoint update_bit_offsets (offset size : Z) (fields : list RegBitField)
         (start : Z) : result (list RegBitField * Z) :=
  match fields with
  | [] => Ok ([], start)
  | f :: rest =>
      if (0 <=? bitpos f) && (bitpos f <? size * 8)
      then
        let f' := {| bit_name := bit_name f; bitpos := bitpos f;
                     bit_ro := bit_ro f;
                     bit_offset := Some (offset + bitpos f / 8) |} in
        match update_bit_offsets offset size rest (Z.min (bitpos f) start) with
        | Ok (rest', start') => Ok (f' :: rest', start')
        | Raise e => Raise e
        | Diverge => Diverge
        end
      else Raise AssertionError
  end.

(** [RegField.__init__] (lines 105-110); [ro] defaults to True and [size]
    to 1 in the source. *)
Definition RegField_init (name : String.string) (offset : Z)
           (fields : list RegBitField) (ro : bool) (size : Z) : result RegField :=
  match update_bit_offsets offset size fields (size * 8 - 1) with
  | Ok (fields', start) =>
      Ok {| reg_name := name; reg_offset := offset; reg_ro := ro;
            reg_fields := fields'; reg_size := size; start_bitpos := start |}
  | Raise e => Raise e
  | Diverge => Diverge
  end.

(** The loop of [get_bitmask]: [mask |= 1 << field.bitpos]. *)
Fixpoint bitmask_loop (fields : list RegBitField) (mask : Z) : result Z :=
  match fields with
  | [] => Ok mask
  | f :: rest =>
      if bitpos f <? 0 then Raise ValueError
      else bitmask_loop rest (Z.lor mask (Z.shiftl 1 (bitpos f)))
  end.

(** [RegField.get_bitmask] (lines 118-124) *)
Definition get_bitmask (r : RegField) : result (option Z) :=
  match reg_fields r with
  | [] => Ok None
  | fields =>
      match bitmask_loop fields 0 with
      | Ok mask => Ok (Some mask)
      | Raise e => Raise e
      | Diverge => Diverge
      end
  end.

(** ** [NumberRegField] (lines 132-155)

    [struct] formats are covered for the unsigned big-endian codes
    "B", ">H", ">I" and ">Q"; the scale is an integer. *)

Inductive struct_format : Type :=
| Fmt_B
| Fmt_BE_H
| Fmt_BE_I
| Fmt_BE_Q.

Definition calcsize (fmt : struct_format) : nat :=
  match fmt with
  | Fmt_B => 1
  | Fmt_BE_H => 2
  | Fmt_BE_I => 4
  | Fmt_BE_Q => 8
  end.

Definition be_value (raw : list Z) : Z :=
  fold_left (fun acc b => acc * 256 + b) raw 0.

(** [struct.unpack(fmt, raw_data)[0]]: struct.error unless the buffer has
    exactly the size of the format. *)
Definition struct_unpack (fmt : struct_format) (raw_data : list Z) : result Z :=
  if Nat.eqb (length raw_data) (calcsize fmt)
  then Ok (be_value raw_data)
  else Raise StructError.

(** What [decode] returns: the integer, or its true division by the
    scale. *)
Inductive number : Type :=
| Int (z : Z)
| TrueDiv (decoded scale : Z).

Record NumberRegField : Type := {
  num_reg : RegField;
  num_scale : option Z;
  num_format : struct_format
}.

(** [NumberRegField.decode] (lines 141-149) *)
Definition NumberRegField_decode (f : NumberRegField) (raw_data : list Z)
  : result number :=
  (let! decoded := struct_unpack (num_format f) raw_data in
   let! mask := get_bitmask (num_reg f) in
   let! decoded :=
     match mask with
     | Some m =>
         if start_bitpos (num_reg f) <? 0 then Raise ValueError
         else Ok (Z.shiftr (Z.land decoded m) (start_bitpos (num_reg f)))
     | None => Ok decoded
     end in
   match num_scale f with
   | Some scale =>
       if scale =? 0 then Raise ZeroDivisionError else Ok (TrueDiv decoded scale)
   | None => Ok (Int decoded)
   end)%result.

(** ** [RegGroupField] (lines 196-230)

    The members of a group are register fields or groups. *)

#[warnings="-register-all"]
Inductive XcvrField : Type :=
| FReg (r : RegField)
| FGroup (name : String.string) (offset : Z) (ro : bool) (fields : list XcvrField).

(** [get_offset] (lines 34-38) *)
Definition get_offset (f : XcvrField) : Z :=
  match f with
  | FReg r => reg_offset r
  | FGroup _ offset _ _ => offset
  end.

(** [get_size]: [RegField.get_size] (line 127) and
    [RegGroupField.get_size] (lines 210-215). *)
Fixpoint get_size (f : XcvrField) : Z :=
  match f with
  | FReg r => reg_size r
  | FGroup _ offset _ fields =>
      let start := offset in
      fold_left (fun end_ field => Z.max end_ (get_offset field + get_size field))
                fields start - start
  end.

(** [RegGroupField.__init__] (lines 205-208): the offset is that of the
    first member; [fields[0]] of no members is an IndexError. *)
Definition RegGroupField_init (name : String.string) (fields : list XcvrField)
           (ro : bool) : result XcvrField :=
  match fields with
  | [] => Raise IndexError
  | first :: _ => Ok (FGroup name (get_offset first) ro fields)
  end.

(** The slice bounds that [RegGroupField.decode] (lines 225-229) hands to a
    member: [raw_data[offset - start : offset + size - start]]. *)
Definition member_slice (start : Z) (member : XcvrField) : Z * Z :=
  (get_offset member - start, get_offset member + get_size member - start).

(** ** Facts about sums and updates *)

Lemma fold_left_add_shift (l : list Z) (a : Z) :
  fold_left Z.add l a = a + fold_left Z.add l 0.
Proof.
  revert a; induction l as [|x l IH]; intros a; simpl.
  - lia.
  - rewrite (IH (a + x)), (IH x). lia.
Qed.

Lemma sum_bytes_cons (x : Z) (l : list Z) :
  sum_bytes (x :: l) = x + sum_bytes l.
Proof. unfold sum_bytes; simpl. now rewrite fold_left_add_shift. Qed.

Lemma sum_bytes_app (l1 l2 : list Z) :
  sum_bytes (l1 ++ l2) = sum_bytes l1 + sum_bytes l2.
Proof.
  induction l1 as [|x l1 IH]; simpl.
  - reflexivity.
  - rewrite !sum_bytes_cons, IH. lia.
Qed.

Lemma sum_bytes_update (l : list Z) (n : nat) (v : Z) :
  (n < length l)%nat ->
  sum_bytes (list_update l n v) = sum_bytes l - nth n l 0 + v.
Proof.
  revert n; induction l as [|x l IH]; intros n Hn; simpl in Hn.
  - lia.
  - destruct n as [|n]; simpl.
    + rewrite !sum_bytes_cons. lia.
    + rewrite !sum_bytes_cons, IH by lia. lia.
Qed.

Lemma length_list_update (l : list Z) (n : nat) (v : Z) :
  length (list_update l n v) = length l.
Proof.
  revert n; induction l as [|x l IH]; intros [|n]; simpl; auto.
Qed.

Lemma land_255_mod (s : Z) : Z.land s 0xff = s mod 256.
Proof. change 0xff with (Z.ones 8). rewrite Z.land_ones by lia. reflexivity. Qed.

Lemma cdb_chkcode_is_byte (cmd : list Z) : is_byte (cdb_chkcode cmd).
Proof.
  unfold is_byte, cdb_chkcode. rewrite land_255_mod.
  pose proof (Z.mod_pos_bound (sum_bytes cmd) 256 ltac:(lia)). lia.
Qed.

Lemma bytearray_setitem_ok (cmd : list Z) (i v : Z) :
  0 <= i < len cmd -> is_byte v ->
  bytearray_setitem cmd i v = Ok (list_update cmd (Z.to_nat i) v).
Proof.
  unfold bytearray_setitem, is_byte; intros Hi Hv.
  destruct (i <? 0) eqn:E1; [apply Z.ltb_lt in E1; lia|].
  rewrite E1.
  destruct (len cmd <=? i) eqn:E2; [apply Z.leb_le in E2; lia|].
  destruct (v <? 0) eqn:E3; [apply Z.ltb_lt in E3; lia|].
  destruct (256 <=? v) eqn:E4; [apply Z.leb_le in E4; lia|].
  reflexivity.
Qed.

(** ** C1 *)

(** C1, as stated, fails on the query-status frame: stamping the slot with
    [cdb_chkcode] makes the bytes add up to 255 modulo 256, not to 0. *)
Lemma C1_sum_not_zero :
  cmd0000h_frame = Ok [0; 0; 0; 0; 2; 237; 0; 0; 0; 16] /\
  sum_bytes [0; 0; 0; 0; 2; 237; 0; 0; 0; 16] mod 256 <> 0.
Proof. split; [reflexivity | vm_compute; discriminate]. Qed.

(** C1 (amended): for every frame whose checksum slot [i] holds zero,
    storing [cdb_chkcode] of the frame in that slot succeeds and yields a
    frame whose bytes add up to 255 (0xFF) modulo 256: the check code is the
    one's complement of the byte sum. *)
Theorem C1_stamped_sum_is_255 (cmd : list Z) (i : Z) :
  0 <= i < len cmd ->
  nth (Z.to_nat i) cmd 0 = 0 ->
  exists f,
    bytearray_setitem cmd i (cdb_chkcode cmd) = Ok f /\
    len f = len cmd /\
    nth (Z.to_nat i) f 0 = 0xff - sum_bytes cmd mod 256 /\
    sum_bytes f mod 256 = 255.
Proof.
  intros Hi Hz.
  exists (list_update cmd (Z.to_nat i) (cdb_chkcode cmd)).
  assert (Hn : (Z.to_nat i < length cmd)%nat) by (unfold len in Hi; lia).
  split; [apply bytearray_setitem_ok; auto using cdb_chkcode_is_byte|].
  split; [unfold len; now rewrite length_list_update|].
  split.
  - unfold cdb_chkcode. rewrite land_255_mod.
    clear Hi Hz. revert Hn. generalize (Z.to_nat i) as n.
    generalize (0xff - sum_bytes cmd mod 256) as v.
    induction cmd as [|x l IH]; intros v n Hn; simpl in *; [lia|].
    destruct n; simpl; [reflexivity | apply IH; lia].
  - rewrite sum_bytes_update by exact Hn. rewrite Hz.
    unfold cdb_chkcode. rewrite land_255_mod.
    replace (sum_bytes cmd - 0 + (0xff - sum_bytes cmd mod 256))
      with (255 + sum_bytes cmd / 256 * 256)
      by (pose proof (Z.div_mod (sum_bytes cmd) 256 ltac:(lia)); lia).
    rewrite Z.mod_add by lia. reflexivity.
Qed.

Lemma C1_stamped_sum_is_255_witness :
  exists f,
    bytearray_setitem [0; 0; 0; 0; 2; 0; 0; 0; 0; 16] 5
      (cdb_chkcode [0; 0; 0; 0; 2; 0; 0; 0; 0; 16]) = Ok f /\
    len f = len [0; 0; 0; 0; 2; 0; 0; 0; 0; 16] /\
    nth (Z.to_nat 5) f 0 = 0xff - sum_bytes [0; 0; 0; 0; 2; 0; 0; 0; 0; 16] mod 256 /\
    sum_bytes f mod 256 = 255.
Proof.
  apply (C1_stamped_sum_is_255 [0; 0; 0; 0; 2; 0; 0; 0; 0; 16] 5).
  - vm_compute. split; [discriminate | reflexivity].
  - reflexivity.
Defined.

(** ** Bits of a status byte *)

Lemma py_bool_bit (s : Z) (n : Z) :
  0 <= n -> py_bool (Z.land (Z.shiftr s n) 0x1) = Z.testbit s n.
Proof.
  intros Hn. unfold py_bool.
  change 0x1 with (Z.ones 1). rewrite Z.land_ones by lia.
  change (2 ^ 1) with 2. rewrite <- Z.bit0_mod, Z.shiftr_spec by lia.
  simpl. destruct (Z.testbit s n); reflexivity.
Qed.

(** ** Running the channel primitives *)

Section ChannelFacts.

Variable dev : Device.

Lemma write_cdb_run (cmd : list Z) (h : trace) :
  write_cdb cmd h =
  (h ++ [EvWriteFlexible (LPLPAGE * PAGE_LENGTH + CDB_WRITE_MSG_START)
                         (len cmd - CMDLEN) (slice_from cmd CMDLEN);
         EvWriteFlexible (LPLPAGE * PAGE_LENGTH + INIT_OFFSET)
                         CMDLEN (slice cmd 0 CMDLEN)],
   Ok tt).
Proof.
  unfold write_cdb, write_flexible, bind, emit.
  now rewrite <- app_assoc.
Qed.

Lemma busy_wait_clear (fuel : nat) (status : Z) (h : trace) :
  busy_wait (S fuel) status false h = (h, Ok status).
Proof. reflexivity. Qed.

Lemma busy_wait_stuck (fuel : nat) (status : Z) (h : trace) :
  Z.testbit status 7 = true ->
  busy_wait fuel status true h = (h ++ repeat (EvSleep 1) fuel, Diverge).
Proof.
  intros Hb. revert h; induction fuel as [|fuel IH]; intros h; simpl.
  - unfold lift. now rewrite app_nil_r.
  - unfold bind, time_sleep, emit.
    rewrite py_bool_bit, Hb, IH by lia.
    now rewrite <- app_assoc.
Qed.

Lemma cdb1_chkstatus_clear (fuel : nat) (h : trace) :
  Z.testbit (dev_read dev h CDB1_STATUS) 7 = false ->
  cdb1_chkstatus dev (S fuel) h =
  (h ++ [EvRead CDB1_STATUS (dev_read dev h CDB1_STATUS)],
   Ok (dev_read dev h CDB1_STATUS)).
Proof.
  intros Hb. unfold cdb1_chkstatus, bind, xcvr_read.
  rewrite py_bool_bit, Hb by lia. reflexivity.
Qed.

Lemma cdb1_chkstatus_busy (fuel : nat) (h : trace) :
  Z.testbit (dev_read dev h CDB1_STATUS) 7 = true ->
  cdb1_chkstatus dev fuel h =
  (h ++ EvRead CDB1_STATUS (dev_read dev h CDB1_STATUS) :: repeat (EvSleep 1) fuel,
   Diverge).
Proof.
  intros Hb. unfold cdb1_chkstatus, bind, xcvr_read.
  rewrite py_bool_bit, Hb by lia.
  rewrite busy_wait_stuck by exact Hb.
  now rewrite <- app_assoc.
Qed.

End ChannelFacts.

(** ** C2 *)

(** C2: [cdb1_chkstatus] reads the status register once and never again.
    On a device whose second status read would have the busy bit clear, the
    loop only sleeps: whatever the iteration budget, the call has not
    returned, and the trace holds the single read followed by sleeps. *)
Theorem C2_chkstatus_reads_status_once (fuel : nat) :
  dev_read busy_once [EvRead CDB1_STATUS 0x81] CDB1_STATUS = 0x01 /\
  Z.testbit 0x01 7 = false /\
  cdb1_chkstatus busy_once fuel [] =
    (EvRead CDB1_STATUS 0x81 :: repeat (EvSleep 1) fuel, Diverge) /\
  status_reads (fst (cdb1_chkstatus busy_once fuel [])) = 1%nat.
Proof.
  assert (E : cdb1_chkstatus busy_once fuel [] =
              (EvRead CDB1_STATUS 0x81 :: repeat (EvSleep 1) fuel, Diverge)).
  { rewrite cdb1_chkstatus_busy by reflexivity. reflexivity. }
  repeat split; try reflexivity; try exact E.
  rewrite E. simpl. unfold status_reads. simpl. clear E.
  induction fuel as [|fuel IH]; simpl; [reflexivity | exact IH].
Qed.

(** ** C3 *)

(** C3: for a frame of at least two bytes, [write_cdb] appends exactly two
    writes to the trace, in this order: first the payload [cmd[2:]]
    ([len cmd - 2] bytes) at page 0x9f, byte offset 130, then the two bytes
    [cmd[:2]] at page 0x9f, byte offset 128. *)
Theorem C3_write_cdb_payload_then_opcode (cmd : list Z) (h : trace) :
  2 <= len cmd ->
  write_cdb cmd h =
    (h ++ [EvWriteFlexible (0x9f * 128 + 130) (len cmd - 2) (skipn 2 cmd);
           EvWriteFlexible (0x9f * 128 + 128) 2 (firstn 2 cmd)],
     Ok tt) /\
  len (skipn 2 cmd) = len cmd - 2 /\
  len (firstn 2 cmd) = 2 /\
  firstn 2 cmd ++ skipn 2 cmd = cmd.
Proof.
  intros Hlen. split; [apply write_cdb_run|].
  unfold len in *. rewrite length_skipn, length_firstn, firstn_skipn.
  repeat split; lia.
Qed.

Lemma C3_write_cdb_payload_then_opcode_witness :
  write_cdb [0; 0; 0; 0; 2; 237; 0; 0; 0; 16] [] =
    ([EvWriteFlexible (0x9f * 128 + 130) 8 [0; 0; 2; 237; 0; 0; 0; 16];
      EvWriteFlexible (0x9f * 128 + 128) 2 [0; 0]],
     Ok tt).
Proof.
  exact (proj1 (C3_write_cdb_payload_then_opcode
                  [0; 0; 0; 0; 2; 237; 0; 0; 0; 16] []
                  ltac:(vm_compute; discriminate))).
Defined.

(** ** C5 *)

(** C5: when bit 2 (datapath firmware fault) or bit 1 (module firmware
    fault) of the fault-flags byte is set, [cdb1_chkflags] fails right after
    the register read with the AssertionError of its two [assert]s, whatever
    bit 6 (command complete) is; when both are clear it does not fail and
    returns whether the command is still incomplete. *)
Theorem C5_chkflags_fault_precedence (dev : Device) (h : trace) :
  let status := dev_read dev h MODULE_FIRMWARE_FAULT_INFO in
  (Z.testbit status 2 || Z.testbit status 1 = true ->
   cdb1_chkflags dev h =
     (h ++ [EvRead MODULE_FIRMWARE_FAULT_INFO status], Raise AssertionError)) /\
  (Z.testbit status 2 || Z.testbit status 1 = false ->
   cdb1_chkflags dev h =
     (h ++ [EvRead MODULE_FIRMWARE_FAULT_INFO status],
      Ok (negb (Z.testbit status 6)))).
Proof.
  intros status. unfold cdb1_chkflags, bind, xcvr_read. fold status.
  rewrite !py_bool_bit by lia.
  destruct (Z.testbit status 2), (Z.testbit status 1), (Z.testbit status 6);
    simpl; split; intros H; try discriminate H; reflexivity.
Qed.

Lemma C5_chkflags_fault_precedence_witness :
  cdb1_chkflags (scripted_device [] 0x01 0x44 0 0 []) [] =
    ([EvRead MODULE_FIRMWARE_FAULT_INFO 0x44], Raise AssertionError) /\
  cdb1_chkflags (scripted_device [] 0x01 0x02 0 0 []) [] =
    ([EvRead MODULE_FIRMWARE_FAULT_INFO 0x02], Raise AssertionError) /\
  cdb1_chkflags (scripted_device [] 0x01 0x40 0 0 []) [] =
    ([EvRead MODULE_FIRMWARE_FAULT_INFO 0x40], Ok false).
Proof.
  split; [|split].
  - apply (proj1 (C5_chkflags_fault_precedence
                    (scripted_device [] 0x01 0x44 0 0 []) [])). reflexivity.
  - apply (proj1 (C5_chkflags_fault_precedence
                    (scripted_device [] 0x01 0x02 0 0 []) [])). reflexivity.
  - apply (proj2 (C5_chkflags_fault_precedence
                    (scripted_device [] 0x01 0x40 0 0 []) [])). reflexivity.
Defined.

(** ** Frames with fields *)

Lemma land_255_is_byte (x : Z) : is_byte (Z.land x 0xff).
Proof.
  unfold is_byte. rewrite land_255_mod.
  apply Z.mod_pos_bound. lia.
Qed.

Lemma stamp_ok (cmd : list Z) :
  5 < len cmd ->
  stamp cmd = Ok (list_update cmd 5 (cdb_chkcode cmd)).
Proof.
  intros H. unfold stamp.
  rewrite bytearray_setitem_ok; [reflexivity | | apply cdb_chkcode_is_byte].
  change CHK_SLOT with 5. lia.
Qed.

Lemma be32_of_bytes_mod (x : Z) :
  be32 (Z.land (Z.shiftr x 24) 0xff) (Z.land (Z.shiftr x 16) 0xff)
       (Z.land (Z.shiftr x 8) 0xff) (Z.land (Z.shiftr x 0) 0xff) = x mod 2 ^ 32.
Proof.
  unfold be32.
  rewrite !land_255_mod, !Z.shiftr_div_pow2 by lia.
  change (2 ^ 32) with 4294967296.
  change (2 ^ 24) with 16777216. change (2 ^ 16) with 65536.
  change (2 ^ 8) with 256. change (2 ^ 0) with 1.
  rewrite Z.div_1_r.
  Z.div_mod_to_equations. lia.
Qed.

Lemma be32_of_bytes (x : Z) :
  0 <= x < 2 ^ 32 ->
  be32 (Z.land (Z.shiftr x 24) 0xff) (Z.land (Z.shiftr x 16) 0xff)
       (Z.land (Z.shiftr x 8) 0xff) (Z.land (Z.shiftr x 0) 0xff) = x.
Proof.
  intros Hx. rewrite be32_of_bytes_mod. now apply Z.mod_small.
Qed.

Lemma len_app (l1 l2 : list Z) : len (l1 ++ l2) = len l1 + len l2.
Proof. unfold len. rewrite length_app. lia. Qed.

Lemma len_nonneg (l : list Z) : 0 <= len l.
Proof. unfold len. lia. Qed.

(** The start-download frame, field by field, when the LPL size fits a
    byte. *)
Lemma cmd0101h_frame_ok (startLPLsize : Z) (header : list Z) (imagesize : Z) :
  0 <= startLPLsize + 8 < 256 ->
  cmd0101h_frame startLPLsize header imagesize =
  Ok (let body :=
        [0x01; 0x01; 0x00; 0x00; startLPLsize + 8; 0x00; 0x00; 0x00;
         Z.land (Z.shiftr imagesize 24) 0xff;
         Z.land (Z.shiftr imagesize 16) 0xff;
         Z.land (Z.shiftr imagesize 8) 0xff;
         Z.land (Z.shiftr imagesize 0) 0xff;
         0x00; 0x00; 0x00; 0x00] ++ header in
      list_update body 5 (cdb_chkcode body)).
Proof.
  intros Hs. unfold cmd0101h_frame.
  rewrite bytearray_setitem_ok by (first [exact Hs | vm_compute; split; [discriminate | reflexivity]]).
  cbn [rbind].
  change (Z.to_nat (132 - INIT_OFFSET)) with 4%nat. cbn [list_update].
  set (b0 := Z.land (Z.shiftr imagesize 24) 0xff).
  set (b1 := Z.land (Z.shiftr imagesize 16) 0xff).
  set (b2 := Z.land (Z.shiftr imagesize 8) 0xff).
  set (b3 := Z.land (Z.shiftr imagesize 0) 0xff).
  rewrite (bytearray_setitem_ok _ (136 - INIT_OFFSET) b0)
    by (first [apply land_255_is_byte | vm_compute; split; [discriminate | reflexivity]]).
  cbn [rbind]. change (Z.to_nat (136 - INIT_OFFSET)) with 8%nat. cbn [list_update].
  rewrite (bytearray_setitem_ok _ (137 - INIT_OFFSET) b1)
    by (first [apply land_255_is_byte | vm_compute; split; [discriminate | reflexivity]]).
  cbn [rbind]. change (Z.to_nat (137 - INIT_OFFSET)) with 9%nat. cbn [list_update].
  rewrite (bytearray_setitem_ok _ (138 - INIT_OFFSET) b2)
    by (first [apply land_255_is_byte | vm_compute; split; [discriminate | reflexivity]]).
  cbn [rbind]. change (Z.to_nat (138 - INIT_OFFSET)) with 10%nat. cbn [list_update].
  rewrite (bytearray_setitem_ok _ (139 - INIT_OFFSET) b3)
    by (first [apply land_255_is_byte | vm_compute; split; [discriminate | reflexivity]]).
  cbn [rbind]. change (Z.to_nat (139 - INIT_OFFSET)) with 11%nat. cbn [list_update].
  rewrite stamp_ok; [reflexivity|].
  rewrite len_app. pose proof (len_nonneg header).
  change (len [1; 1; 0; 0; startLPLsize + 8; 0; 0; 0; b0; b1; b2; b3; 0; 0; 0; 0]) with 16.
  lia.
Qed.

(** The LPL download frame, field by field. *)
Lemma cmd0103h_frame_ok (addr : Z) (data : list Z) :
  cmd0103h_frame addr data =
  Ok (let body :=
        [0x01; 0x03; 0x00; 0x00; Z.land (len data + 4) 0xff; 0x00; 0x00; 0x00;
         Z.land (Z.shiftr addr 24) 0xff;
         Z.land (Z.shiftr addr 16) 0xff;
         Z.land (Z.shiftr addr 8) 0xff;
         Z.land (Z.shiftr addr 0) 0xff] ++ ljust data 116 0x00 in
      list_update body 5 (cdb_chkcode body)).
Proof.
  unfold cmd0103h_frame. cbv zeta.
  set (l := Z.land (len data + 4) 0xff).
  set (b0 := Z.land (Z.shiftr addr 24) 0xff).
  set (b1 := Z.land (Z.shiftr addr 16) 0xff).
  set (b2 := Z.land (Z.shiftr addr 8) 0xff).
  set (b3 := Z.land (Z.shiftr addr 0) 0xff).
  rewrite (bytearray_setitem_ok _ (132 - INIT_OFFSET) l)
    by (first [apply land_255_is_byte | vm_compute; split; [discriminate | reflexivity]]).
  cbn [rbind]. change (Z.to_nat (132 - INIT_OFFSET)) with 4%nat. cbn [list_update].
  rewrite (bytearray_setitem_ok _ (136 - INIT_OFFSET) b0)
    by (first [apply land_255_is_byte | vm_compute; split; [discriminate | reflexivity]]).
  cbn [rbind]. change (Z.to_nat (136 - INIT_OFFSET)) with 8%nat. cbn [list_update].
  rewrite (bytearray_setitem_ok _ (137 - INIT_OFFSET) b1)
    by (first [apply land_255_is_byte | vm_compute; split; [discriminate | reflexivity]]).
  cbn [rbind]. change (Z.to_nat (137 - INIT_OFFSET)) with 9%nat. cbn [list_update].
  rewrite (bytearray_setitem_ok _ (138 - INIT_OFFSET) b2)
    by (first [apply land_255_is_byte | vm_compute; split; [discriminate | reflexivity]]).
  cbn [rbind]. change (Z.to_nat (138 - INIT_OFFSET)) with 10%nat. cbn [list_update].
  rewrite (bytearray_setitem_ok _ (139 - INIT_OFFSET) b3)
    by (first [apply land_255_is_byte | vm_compute; split; [discriminate | reflexivity]]).
  cbn [rbind]. change (Z.to_nat (139 - INIT_OFFSET)) with 11%nat. cbn [list_update].
  rewrite stamp_ok; [reflexivity|].
  rewrite len_app. pose proof (len_nonneg (ljust data 116 0)).
  change (len [1; 3; 0; 0; l; 0; 0; 0; b0; b1; b2; b3]) with 12.
  lia.
Qed.

Lemma len_ljust (data : list Z) (width fill : Z) :
  len data <= width -> len (ljust data width fill) = width.
Proof.
  intros H. unfold ljust, len in *. rewrite length_app, repeat_length. lia.
Qed.

Lemma ljust_long (data : list Z) (width fill : Z) :
  width <= len data -> ljust data width fill = data.
Proof.
  intros H. unfold ljust.
  replace (Z.to_nat (width - len data)) with 0%nat by lia.
  apply app_nil_r.
Qed.

(** ** C7 *)

(** C7, as stated, fails when [startLPLsize + 8] does not fit the one-byte
    field: the assignment at line 211 raises ValueError and no frame is
    built. *)
Lemma C7_lpl_size_out_of_range :
  cmd0101h_frame 248 [] 4096 = Raise ValueError /\
  ~ (exists frame, cmd0101h_frame 248 [] 4096 = Ok frame /\
                   nth 4 frame 0 = 248 + 8).
Proof.
  split; [reflexivity|].
  intros [frame [H _]]. vm_compute in H. discriminate H.
Qed.

(** C7 (amended): for every [startLPLsize] with [0 <= startLPLsize + 8 < 256],
    every header and every image size, [cmd0101h] builds a frame whose byte
    at offset 132 (index 4) is [startLPLsize + 8], whose bytes at offsets
    136-139 (indices 8-11) are the four big-endian bytes of the image size
    modulo 2^32, hence of the image size itself when it is an unsigned
    32-bit value, and which carries the header from index 16 on. *)
Theorem C7_start_download_fields (startLPLsize : Z) (header : list Z) (imagesize : Z) :
  0 <= startLPLsize + 8 < 256 ->
  exists frame,
    cmd0101h_frame startLPLsize header imagesize = Ok frame /\
    nth 4 frame 0 = startLPLsize + 8 /\
    firstn 4 (skipn 8 frame) =
      [Z.land (Z.shiftr imagesize 24) 0xff; Z.land (Z.shiftr imagesize 16) 0xff;
       Z.land (Z.shiftr imagesize 8) 0xff; Z.land (Z.shiftr imagesize 0) 0xff] /\
    be32 (nth 8 frame 0) (nth 9 frame 0) (nth 10 frame 0) (nth 11 frame 0) =
      imagesize mod 2 ^ 32 /\
    (0 <= imagesize < 2 ^ 32 ->
     be32 (nth 8 frame 0) (nth 9 frame 0) (nth 10 frame 0) (nth 11 frame 0) =
       imagesize) /\
    skipn 16 frame = header.
Proof.
  intros Hs. eexists. split; [apply cmd0101h_frame_ok; exact Hs|].
  cbv zeta. cbn [app list_update nth skipn firstn].
  repeat split.
  - apply be32_of_bytes_mod.
  - apply be32_of_bytes.
Qed.

Lemma C7_start_download_fields_witness :
  exists frame,
    cmd0101h_frame 8 [] 4096 = Ok frame /\
    nth 4 frame 0 = 8 + 8 /\
    firstn 4 (skipn 8 frame) =
      [Z.land (Z.shiftr 4096 24) 0xff; Z.land (Z.shiftr 4096 16) 0xff;
       Z.land (Z.shiftr 4096 8) 0xff; Z.land (Z.shiftr 4096 0) 0xff] /\
    be32 (nth 8 frame 0) (nth 9 frame 0) (nth 10 frame 0) (nth 11 frame 0) =
      4096 mod 2 ^ 32 /\
    (0 <= 4096 < 2 ^ 32 ->
     be32 (nth 8 frame 0) (nth 9 frame 0) (nth 10 frame 0) (nth 11 frame 0) =
       4096) /\
    skipn 16 frame = [].
Proof.
  apply (C7_start_download_fields 8 [] 4096). lia.
Defined.

(** ** C8 *)

(** C8: for every data of at most 116 bytes and every unsigned 32-bit
    address, [cmd0103h] builds a frame whose LPL length (offset 132, index 4)
    is [len data + 4], whose bytes at offsets 136-139 (indices 8-11) are the
    big-endian bytes of the address, and whose inline payload (index 12 on)
    is the data followed by zeros up to exactly 116 bytes. *)
Theorem C8_lpl_download_fields (addr : Z) (data : list Z) :
  len data <= 116 ->
  0 <= addr < 2 ^ 32 ->
  exists frame,
    cmd0103h_frame addr data = Ok frame /\
    nth 4 frame 0 = len data + 4 /\
    firstn 4 (skipn 8 frame) =
      [Z.land (Z.shiftr addr 24) 0xff; Z.land (Z.shiftr addr 16) 0xff;
       Z.land (Z.shiftr addr 8) 0xff; Z.land (Z.shiftr addr 0) 0xff] /\
    be32 (nth 8 frame 0) (nth 9 frame 0) (nth 10 frame 0) (nth 11 frame 0) = addr /\
    skipn 12 frame = data ++ repeat 0 (Z.to_nat (116 - len data)) /\
    len (skipn 12 frame) = 116.
Proof.
  intros Hd Ha. eexists. split; [apply cmd0103h_frame_ok|].
  cbv zeta. cbn [app list_update nth skipn firstn].
  pose proof (len_nonneg data).
  repeat split.
  - rewrite land_255_mod. apply Z.mod_small. lia.
  - now apply be32_of_bytes.
  - now apply len_ljust.
Qed.

Lemma C8_lpl_download_fields_witness :
  exists frame,
    cmd0103h_frame 0x00010203 [0xAA; 0xBB; 0xCC] = Ok frame /\
    nth 4 frame 0 = len [0xAA; 0xBB; 0xCC] + 4 /\
    firstn 4 (skipn 8 frame) =
      [Z.land (Z.shiftr 0x00010203 24) 0xff; Z.land (Z.shiftr 0x00010203 16) 0xff;
       Z.land (Z.shiftr 0x00010203 8) 0xff; Z.land (Z.shiftr 0x00010203 0) 0xff] /\
    be32 (nth 8 frame 0) (nth 9 frame 0) (nth 10 frame 0) (nth 11 frame 0) =
      0x00010203 /\
    skipn 12 frame =
      [0xAA; 0xBB; 0xCC] ++ repeat 0 (Z.to_nat (116 - len [0xAA; 0xBB; 0xCC])) /\
    len (skipn 12 frame) = 116.
Proof.
  apply (C8_lpl_download_fields 0x00010203 [0xAA; 0xBB; 0xCC]).
  - vm_compute. discriminate.
  - lia.
Defined.

(** ** Traces of the retry loop *)

Lemma attempts_in_app (l1 l2 : trace) :
  attempts_in (l1 ++ l2) = (attempts_in l1 + attempts_in l2)%nat.
Proof. unfold attempts_in. now rewrite filter_app, length_app. Qed.

Lemma quiet_no_attempt (l : trace) :
  Forall quiet l -> attempts_in l = 0%nat.
Proof.
  induction 1 as [|e l He _ IH]; [reflexivity|].
  change (e :: l) with ([e] ++ l). rewrite attempts_in_app, IH.
  destruct e; try reflexivity. discriminate He.
Qed.

Lemma quiet_lpl_only (l : trace) :
  Forall quiet l -> Forall lpl_only l.
Proof.
  apply Forall_impl. intros [] H; simpl; auto. discriminate H.
Qed.

Lemma quiet_sleeps (n : nat) : Forall quiet (repeat (EvSleep 1) n).
Proof. induction n; simpl; constructor; auto. reflexivity. Qed.

Lemma attempt_prefix_count (cmd : list Z) :
  attempts_in (attempt_prefix cmd) = 1%nat.
Proof. reflexivity. Qed.

Lemma attempt_prefix_lpl (cmd : list Z) : Forall lpl_only (attempt_prefix cmd).
Proof.
  unfold attempt_prefix.
  constructor; [left; reflexivity|].
  constructor; [right; reflexivity|].
  constructor; [exact I | constructor].
Qed.

Section RetryFacts.

Variable dev : Device.

Lemma cdb1_chkstatus_trace (fuel : nat) (h : trace) :
  exists l r, cdb1_chkstatus dev fuel h = (h ++ l, r) /\ Forall quiet l.
Proof.
  destruct (Z.testbit (dev_read dev h CDB1_STATUS) 7) eqn:Hb.
  - rewrite cdb1_chkstatus_busy by exact Hb.
    do 2 eexists. split; [reflexivity|].
    constructor; [reflexivity | apply quiet_sleeps].
  - destruct fuel as [|fuel].
    + unfold cdb1_chkstatus, bind, xcvr_read.
      rewrite py_bool_bit, Hb by lia. simpl. unfold lift.
      do 2 eexists. split; [reflexivity|]. repeat constructor.
    + rewrite cdb1_chkstatus_clear by exact Hb.
      do 2 eexists. split; [reflexivity|]. repeat constructor.
Qed.

(** Entering an iteration of the retry loop: the frame is written, the
    settle delay elapses and the status is polled. *)
Lemma cdb_attempts_step (fuel tries : nat) (cmd : list Z) (status : option Z)
      (h : trace) :
  cdb_attempts dev fuel (S tries) cmd status h =
  match cdb1_chkstatus dev fuel (h ++ attempt_prefix cmd) with
  | (h', Ok s) =>
      if negb (s =? 0x1)
      then cdb_attempts dev fuel tries cmd (Some s) (h' ++ [EvPrint (MsgStatusFail s)])
      else (h', Ok (Some s))
  | (h', Raise e) => (h', Raise e)
  | (h', Diverge) => (h', Diverge)
  end.
Proof.
  cbn [cdb_attempts]. unfold bind at 1. rewrite write_cdb_run.
  unfold bind at 1. unfold time_sleep at 1, emit at 1.
  rewrite <- app_assoc. cbn [app]. fold (attempt_prefix cmd).
  unfold bind at 1.
  destruct (cdb1_chkstatus dev fuel (h ++ attempt_prefix cmd)) as [h' [s|e|]];
    try reflexivity.
  destruct (negb (s =? 1)); reflexivity.
Qed.



(** Whatever the device does, the loop makes at most [tries] attempts and
    writes nowhere but to the command channel. *)
Lemma cdb_attempts_trace (fuel tries : nat) (cmd : list Z) :
  forall (status : option Z) (h : trace),
  exists l r,
    cdb_attempts dev fuel tries cmd status h = (h ++ l, r) /\
    (attempts_in l <= tries)%nat /\
    Forall lpl_only l.
Proof.
  induction tries as [|tries IH]; intros status h.
  - exists [], (Ok status). cbn. unfold ret. rewrite app_nil_r. auto.
  - rewrite cdb_attempts_step.
    destruct (cdb1_chkstatus_trace fuel (h ++ attempt_prefix cmd))
      as (l1 & r1 & E1 & Q1).
    rewrite E1.
    assert (Hcount : attempts_in (attempt_prefix cmd ++ l1) = 1%nat).
    { rewrite attempts_in_app, attempt_prefix_count, quiet_no_attempt by exact Q1.
      reflexivity. }
    assert (Hlpl : Forall lpl_only (attempt_prefix cmd ++ l1)).
    { apply Forall_app. split; [apply attempt_prefix_lpl | now apply quiet_lpl_only]. }
    destruct r1 as [s|e|].
    + destruct (negb (s =? 1)).
      * destruct (IH (Some s) ((h ++ attempt_prefix cmd) ++ l1 ++ [EvPrint (MsgStatusFail s)]))
          as (l2 & r2 & E2 & C2 & L2).
        rewrite app_assoc in E2. rewrite E2.
        exists ((attempt_prefix cmd ++ l1) ++ [EvPrint (MsgStatusFail s)] ++ l2), r2.
        split; [now rewrite <- !app_assoc|].
        split.
        -- rewrite attempts_in_app, Hcount, attempts_in_app. simpl. lia.
        -- apply Forall_app. split; [exact Hlpl|].
           constructor; [exact I | exact L2].
      * exists (attempt_prefix cmd ++ l1), (Ok (Some s)).
        split; [now rewrite <- app_assoc|]. split; [lia | exact Hlpl].
    + exists (attempt_prefix cmd ++ l1), (Raise e).
      split; [now rewrite <- app_assoc|]. split; [lia | exact Hlpl].
    + exists (attempt_prefix cmd ++ l1), Diverge.
      split; [now rewrite <- app_assoc|]. split; [lia | exact Hlpl].
Qed.

End RetryFacts.

(** ** Constant devices *)

Lemma constant_device_status (status : Z) (h : trace) :
  dev_read (constant_device status) h CDB1_STATUS = status.
Proof. simpl. destruct (status_reads h); reflexivity. Qed.

(** ** Every command is an instance of the envelope *)

Section EnvelopeFacts.

Variable dev : Device.
Variable fuel : nat.

Lemma reply_command_shape (fr : result (list Z)) (h : trace) :
  reply_of (reply_command dev fuel fr) h =
  (ret tt ;;
   cmd <- lift fr ;;
   status <- retry_loop dev fuel cmd ;;
   reply_of (read_cdb dev))%cdb h.
Proof.
  unfold reply_of, reply_command, bind, ret, lift.
  destruct fr as [cmd|e|]; try reflexivity.
  destruct (retry_loop dev fuel cmd h) as [h1 [st|e|]]; try reflexivity.
Qed.

Lemma status_command_shape (pre : M unit) (fr : result (list Z)) (h : trace) :
  status_of (pre ;; status_command dev fuel fr)%cdb h =
  (pre ;;
   cmd <- lift fr ;;
   status <- retry_loop dev fuel cmd ;;
   status_of (local_status status))%cdb h.
Proof.
  unfold status_of, status_command, bind, ret, lift.
  destruct (pre h) as [h0 [[]|e|]]; try reflexivity.
  destruct fr as [cmd|e|]; try reflexivity.
  destruct (retry_loop dev fuel cmd h0) as [h1 [st|e|]]; try reflexivity.
Qed.

Lemma status_command_shape0 (fr : result (list Z)) (h : trace) :
  status_of (status_command dev fuel fr) h =
  (ret tt ;;
   cmd <- lift fr ;;
   status <- retry_loop dev fuel cmd ;;
   status_of (local_status status))%cdb h.
Proof.
  rewrite <- status_command_shape. reflexivity.
Qed.

Lemma status_command_shape2 (p1 p2 : M unit) (fr : result (list Z)) (h : trace) :
  status_of (p1 ;; p2 ;; status_command dev fuel fr)%cdb h =
  ((p1 ;; p2) ;;
   cmd <- lift fr ;;
   status <- retry_loop dev fuel cmd ;;
   status_of (local_status status))%cdb h.
Proof.
  rewrite <- status_command_shape.
  unfold status_of, bind.
  destruct (p1 h) as [h0 [[]|e|]]; try reflexivity.
Qed.

Lemma run_envelope (c : command) (h : trace) :
  run dev fuel c h = envelope dev fuel c h.
Proof.
  destruct c; unfold run, envelope; cbn [prelude_of frame_of returns_reply].
  1-5: apply reply_command_shape.
  - apply status_command_shape.
  - apply status_command_shape0.
  - apply status_command_shape0.
  - apply status_command_shape2.
  - apply status_command_shape0.
  - apply status_command_shape0.
  - apply status_command_shape0.
Qed.

End EnvelopeFacts.

(** ** What happens before and after the retry loop *)

Lemma not_trigger_no_attempt (l : trace) :
  Forall not_trigger l -> attempts_in l = 0%nat.
Proof.
  induction 1 as [|e l He _ IH]; [reflexivity|].
  unfold attempts_in in *. simpl. unfold not_trigger in He. now rewrite He.
Qed.

Lemma quiet_not_trigger (l : trace) : Forall quiet l -> Forall not_trigger l.
Proof.
  apply Forall_impl. intros [] H; try reflexivity. discriminate H.
Qed.

Lemma for_each_emit {A : Type} (xs : list A) (body : A -> M unit) (g : A -> event) :
  (forall x, In x xs -> body x = emit (g x)) ->
  forall h, for_each xs body h = (h ++ map g xs, Ok tt).
Proof.
  induction xs as [|x xs IH]; intros Hb h; simpl.
  - unfold ret. now rewrite app_nil_r.
  - unfold bind. rewrite Hb by (left; reflexivity). unfold emit at 1.
    rewrite IH by (intros y Hy; apply Hb; right; exact Hy).
    now rewrite <- app_assoc.
Qed.

Lemma in_range (n x : Z) : In x (range n) -> 0 <= x < n.
Proof.
  unfold range. rewrite in_map_iff. intros (k & <- & Hk).
  apply in_seq in Hk. lia.
Qed.

Lemma in_range_step (stop step x : Z) : In x (range_step stop step) -> 0 <= x.
Proof.
  unfold range_step. destruct (0 <? step) eqn:E; [|intros []].
  apply Z.ltb_lt in E. rewrite in_map_iff. intros (k & <- & _). nia.
Qed.

Lemma cmd0104h_stage_fixed (data : list Z) (writelength : Z) (h : trace) :
  cmd0104h_stage data false writelength h =
  (h ++ map (page_write data) (range 16), Ok tt).
Proof.
  unfold cmd0104h_stage. cbv zeta. cbn [negb].
  change (if negb (2048 mod PAGE_LENGTH =? 0)
          then 2048 / PAGE_LENGTH + 1 else 2048 / PAGE_LENGTH) with 16.
  apply for_each_emit. intros x Hx. apply in_range in Hx.
  replace (PAGE_LENGTH * (x + 1) <=? 2048) with true
    by (symmetry; apply Z.leb_le; unfold PAGE_LENGTH; lia).
  reflexivity.
Qed.

Lemma cmd0104h_stage_auto (data : list Z) (writelength : Z) (h : trace) :
  writelength <> 0 ->
  cmd0104h_stage data true writelength h =
  (h ++ map (section_write data writelength) (range_step 2048 writelength), Ok tt).
Proof.
  intros Hw. unfold cmd0104h_stage. cbv zeta. cbn [negb].
  apply Z.eqb_neq in Hw. rewrite Hw.
  apply for_each_emit. intros x _. unfold section_write.
  destruct (x + writelength <=? 2048); reflexivity.
Qed.

Lemma page_writes_not_trigger (data : list Z) :
  Forall not_trigger (map (page_write data) (range 16)).
Proof.
  apply Forall_forall. intros e He. apply in_map_iff in He.
  destruct He as (x & <- & Hx). apply in_range in Hx.
  unfold not_trigger, page_write, is_trigger_write.
  apply Z.eqb_neq. unfold LPLPAGE, PAGE_LENGTH, INIT_OFFSET. lia.
Qed.

Lemma section_writes_not_trigger (data : list Z) (writelength : Z) :
  Forall not_trigger
         (map (section_write data writelength) (range_step 2048 writelength)).
Proof.
  apply Forall_forall. intros e He. apply in_map_iff in He.
  destruct He as (x & <- & Hx). apply in_range_step in Hx.
  unfold not_trigger, section_write.
  destruct (x + writelength <=? 2048); unfold is_trigger_write;
    apply Z.eqb_neq; unfold LPLPAGE, PAGE_LENGTH, INIT_OFFSET; lia.
Qed.

Lemma cmd0104h_stage_trace (data : list Z) (autopaging_flag : bool)
      (writelength : Z) (h : trace) :
  exists p r,
    cmd0104h_stage data autopaging_flag writelength h = (h ++ p, r) /\
    Forall not_trigger p /\
    (r = Ok tt \/ exists e, r = Raise e).
Proof.
  destruct autopaging_flag.
  - destruct (Z.eq_dec writelength 0) as [->|Hw].
    + exists [], (Raise ZeroDivisionError). unfold cmd0104h_stage. cbn.
      unfold lift. rewrite app_nil_r. eauto.
    + rewrite cmd0104h_stage_auto by exact Hw.
      do 2 eexists. split; [reflexivity|].
      split; [apply section_writes_not_trigger | now left].
  - rewrite cmd0104h_stage_fixed.
    do 2 eexists. split; [reflexivity|].
    split; [apply page_writes_not_trigger | now left].
Qed.

Lemma prelude_trace (c : command) (h : trace) :
  exists p r,
    prelude_of c h = (h ++ p, r) /\
    Forall not_trigger p /\
    (r = Ok tt \/ exists e, r = Raise e).
Proof.
  destruct c; cbn [prelude_of];
    try (exists [], (Ok tt); unfold ret; rewrite app_nil_r;
         split; [reflexivity | split; [constructor | now left]]).
  - exists [EvPrint (MsgImageSize imagesize)], (Ok tt).
    split; [reflexivity|]. split; [repeat constructor | now left].
  - destruct (cmd0104h_stage_trace data autopaging_flag writelength h)
      as (p & r & E & N & R).
    unfold bind. rewrite E. destruct R as [-> | [e ->]].
    + exists (p ++ [EvPrint MsgWriteTime]), (Ok tt).
      unfold print, emit. rewrite <- app_assoc.
      split; [reflexivity|]. split; [|now left].
      apply Forall_app. split; [exact N | repeat constructor].
    + exists p, (Raise e). split; [reflexivity|]. split; [exact N | eauto].
Qed.

Lemma read_cdb_trace (dev : Device) (h : trace) :
  exists p rpl, read_cdb dev h = (h ++ p, Ok rpl) /\ Forall quiet p.
Proof.
  unfold read_cdb, bind, xcvr_read, read_flexible, ret.
  do 2 eexists. split.
  - rewrite <- !app_assoc. cbn [app]. reflexivity.
  - repeat constructor.
Qed.

(** ** Frame building never loops *)

Lemma bytearray_setitem_returns (cmd : list Z) (i v : Z) :
  bytearray_setitem cmd i v <> Diverge.
Proof.
  unfold bytearray_setitem.
  destruct (_ || _); [discriminate|]. destruct (_ || _); discriminate.
Qed.

Lemma rbind_returns {A B : Type} (r : result A) (k : A -> result B) :
  r <> Diverge -> (forall a, k a <> Diverge) -> rbind r k <> Diverge.
Proof.
  destruct r as [a|e|]; simpl; intros Hr Hk.
  - apply Hk.
  - discriminate.
  - now contradiction Hr.
Qed.

Lemma frame_of_returns (c : command) : frame_of c <> Diverge.
Proof.
  destruct c; cbn [frame_of];
    unfold cmd0000h_frame, cmd0101h_frame, cmd0103h_frame, cmd0104h_frame,
           cmd0109h_frame, stamp;
    cbv zeta;
    repeat (apply rbind_returns; [|intros ?]);
    try apply bytearray_setitem_returns.
  unfold struct_pack_BE_L. destruct (_ || _); discriminate.
Qed.

(** ** The retry loop against a device that never reports success *)

Lemma failed_attempt_count (cmd : list Z) (s : Z) :
  attempts_in (failed_attempt cmd s) = 1%nat.
Proof. reflexivity. Qed.

Section CommandTraces.

Variable dev : Device.
Variable fuel : nat.

(** The first thing the retry loop does is write the frame. *)
Lemma retry_loop_starts (cmd : list Z) (h : trace) :
  exists rest r,
    retry_loop dev fuel cmd h = (h ++ attempt_prefix cmd ++ rest, r) /\
    Forall lpl_only rest.
Proof.
  destruct (cdb_attempts_trace dev fuel 3 cmd None h) as (l & r & E & _ & L).
  unfold retry_loop. change (Z.to_nat MAX_TRY) with 3%nat.
  rewrite E. rewrite cdb_attempts_step in E.
  destruct (cdb1_chkstatus_trace dev fuel (h ++ attempt_prefix cmd))
    as (l1 & r1 & E1 & _).
  rewrite E1 in E.
  assert (Hpre : exists rest, l = attempt_prefix cmd ++ rest).
  { destruct r1 as [s|e|].
    - destruct (negb (s =? 1)).
      + destruct (cdb_attempts_trace dev fuel 2 cmd (Some s)
                    (((h ++ attempt_prefix cmd) ++ l1) ++ [EvPrint (MsgStatusFail s)]))
          as (l2 & r2 & E2 & _).
        rewrite E2 in E. injection E as E _.
        rewrite <- !app_assoc in E. apply app_inv_head in E. eauto.
      + injection E as E _.
        rewrite <- !app_assoc in E. apply app_inv_head in E. eauto.
    - injection E as E _.
      rewrite <- !app_assoc in E. apply app_inv_head in E. eauto.
    - injection E as E _.
      rewrite <- !app_assoc in E. apply app_inv_head in E. eauto. }
  destruct Hpre as (rest & ->).
  exists rest, r. split; [reflexivity|].
  apply Forall_app in L. apply L.
Qed.

Lemma status_command_trace (fr : result (list Z)) (h : trace) :
  exists l r,
    status_command dev fuel fr h = (h ++ l, r) /\ Forall lpl_only l.
Proof.
  unfold status_command, bind, lift.
  destruct fr as [cmd|e|].
  - destruct (cdb_attempts_trace dev fuel 3 cmd None h) as (l & r & E & _ & L).
    unfold retry_loop. change (Z.to_nat MAX_TRY) with 3%nat. rewrite E.
    destruct r as [[s|]|e|]; cbn [local_status]; unfold ret, lift; eauto.
  - exists [], (Raise e). rewrite app_nil_r. auto.
  - exists [], Diverge. rewrite app_nil_r. auto.
Qed.

Lemma status_command_starts (cmd : list Z) (h : trace) :
  exists rest r,
    status_command dev fuel (Ok cmd) h = (h ++ attempt_prefix cmd ++ rest, r).
Proof.
  unfold status_command, bind, lift.
  destruct (retry_loop_starts cmd h) as (rest & r & E & _). rewrite E.
  destruct r as [[s|]|e|]; cbn [local_status]; unfold ret, lift; eauto.
Qed.

End CommandTraces.

(** ** The shape of every run of the retry loop *)

Lemma sent_frame_is_attempt_prefix (cmd : list Z) :
  attempt_prefix cmd = sent_frame cmd.
Proof. reflexivity. Qed.

Lemma last_cons_default {A : Type} (l : list A) :
  forall a d, last (a :: l) d = last l a.
Proof.
  induction l as [|x l IH]; intros a d; [reflexivity|].
  change (last (a :: x :: l) d) with (last (x :: l) d).
  now rewrite !IH.
Qed.

Lemma failed_attempts_cons (cmd : list Z) (s : Z) (fails : list Z) :
  failed_attempts cmd (s :: fails) =
  sent_frame cmd ++ failed_poll s ++ failed_attempts cmd fails.
Proof. unfold failed_attempts. cbn [map concat]. now rewrite <- app_assoc. Qed.

Lemma attempts_in_failed_attempts (cmd : list Z) (fails : list Z) :
  attempts_in (failed_attempts cmd fails) = length fails.
Proof.
  induction fails as [|s fails IH]; [reflexivity|].
  rewrite failed_attempts_cons, !attempts_in_app, IH. reflexivity.
Qed.

Lemma after_failed_attempt (h : trace) (cmd : list Z) (s : Z) (l : trace) :
  (((h ++ sent_frame cmd) ++ [EvRead CDB1_STATUS s])
     ++ [EvPrint (MsgStatusFail s)]) ++ l =
  h ++ sent_frame cmd ++ failed_poll s ++ l.
Proof. unfold failed_poll. rewrite <- !app_assoc. reflexivity. Qed.

Section LoopShape.

Variable dev : Device.
Variable fuel : nat.

(** Every run of the loop is a sequence of failed attempts, each polled
    status idle and different from 0x01, ended in one of three ways: an
    attempt whose poll returns 0x01; no iteration left; or a poll that does
    not return. *)
Lemma cdb_attempts_classified (cmd : list Z) (tries : nat) :
  forall (status : option Z) (h : trace),
  exists fails tail r,
    cdb_attempts dev fuel tries cmd status h =
      (h ++ failed_attempts cmd fails ++ tail, r) /\
    Forall (fun s => s <> 0x1 /\ Z.testbit s 7 = false) fails /\
    answered_by dev h cmd fails /\
    (((length fails < tries)%nat /\
      dev_read dev (h ++ failed_attempts cmd fails ++ sent_frame cmd)
               CDB1_STATUS = 0x1 /\
      tail = sent_frame cmd ++ [EvRead CDB1_STATUS 0x1] /\
      r = Ok (Some 0x1)) \/
     (length fails = tries /\ tail = [] /\
      r = Ok (last (map Some fails) status)) \/
     ((length fails < tries)%nat /\
      exists k,
        tail = sent_frame cmd
                 ++ EvRead CDB1_STATUS
                      (dev_read dev (h ++ failed_attempts cmd fails ++ sent_frame cmd)
                                CDB1_STATUS)
                 :: repeat (EvSleep 1) k /\
        r = Diverge /\
        (fuel = 0%nat \/
         Z.testbit (dev_read dev (h ++ failed_attempts cmd fails ++ sent_frame cmd)
                             CDB1_STATUS) 7 = true))).
Proof.
  induction tries as [|tries IH]; intros status h.
  - exists [], [], (Ok status). cbn. unfold ret. rewrite app_nil_r.
    split; [reflexivity|]. split; [constructor|].
    split; [intros [|? ?] ? ? Hx; discriminate Hx|].
    right. left. auto.
  - rewrite cdb_attempts_step, sent_frame_is_attempt_prefix.
    destruct (Z.testbit (dev_read dev (h ++ sent_frame cmd) CDB1_STATUS) 7) eqn:Hb.
    + rewrite cdb1_chkstatus_busy by exact Hb.
      exists [], (sent_frame cmd ++ EvRead CDB1_STATUS
                    (dev_read dev (h ++ sent_frame cmd) CDB1_STATUS)
                    :: repeat (EvSleep 1) fuel), Diverge.
      split; [cbn [failed_attempts map concat app]; now rewrite <- app_assoc|].
      split; [constructor|].
      split; [intros [|? ?] ? ? Hx; discriminate Hx|].
      right. right. split; [cbn; lia|].
      exists fuel. cbn [failed_attempts map concat app]. auto.
    + destruct fuel as [|fuel'] eqn:Ef.
      * exists [], (sent_frame cmd ++ EvRead CDB1_STATUS
                      (dev_read dev (h ++ sent_frame cmd) CDB1_STATUS)
                      :: repeat (EvSleep 1) 0), Diverge.
        split.
        { unfold cdb1_chkstatus, bind, xcvr_read.
          rewrite py_bool_bit, Hb by lia. cbn [busy_wait]. unfold lift.
          cbn [failed_attempts map concat app repeat]. now rewrite <- app_assoc. }
        split; [constructor|].
        split; [intros [|? ?] ? ? Hx; discriminate Hx|].
        right. right. split; [cbn; lia|].
        exists 0%nat. cbn [failed_attempts map concat app]. auto.
      * rewrite cdb1_chkstatus_clear by exact Hb.
        set (s := dev_read dev (h ++ sent_frame cmd) CDB1_STATUS) in *.
        destruct (s =? 1) eqn:Es; cbn [negb].
        -- apply Z.eqb_eq in Es. rewrite Es.
           exists [], (sent_frame cmd ++ [EvRead CDB1_STATUS 1]), (Ok (Some 1)).
           split; [cbn [failed_attempts map concat app]; now rewrite <- app_assoc|].
           split; [constructor|].
           split; [intros [|? ?] ? ? Hx; discriminate Hx|].
           left. split; [cbn; lia|].
           cbn [failed_attempts map concat app]. auto.
        -- apply Z.eqb_neq in Es.
           destruct (IH (Some s)
                        (((h ++ sent_frame cmd) ++ [EvRead CDB1_STATUS s])
                           ++ [EvPrint (MsgStatusFail s)]))
             as (fails & tail & r & E & Hf & Ha & Hend).
           exists (s :: fails), tail, r.
           split; [rewrite E, failed_attempts_cons, after_failed_attempt;
                   now rewrite <- !app_assoc|].
           split; [constructor; auto|].
           split.
           { intros [|x pre] s' post Hx; injection Hx as Hx1 Hx2.
             - subst s'. reflexivity.
             - subst x. rewrite failed_attempts_cons.
               rewrite <- (Ha pre s' post Hx2).
               rewrite after_failed_attempt. now rewrite <- !app_assoc. }
           rewrite failed_attempts_cons.
           rewrite after_failed_attempt in Hend.
           rewrite <- !app_assoc.
           destruct Hend as [(Hl & Hd & Ht & Hr) | [(Hl & Ht & Hr) | (Hl & Hd)]].
           ++ left. split; [cbn; lia|]. auto.
           ++ right. left. split; [cbn; lia|]. split; [exact Ht|].
              rewrite Hr. cbn [map]. now rewrite last_cons_default.
           ++ right. right. split; [cbn; lia | exact Hd].
Qed.

(** The same for a status-returning command whose frame is built. *)
Lemma status_command_classified (cmd : list Z) (h : trace) :
  exists fails tail r,
    status_command dev fuel (Ok cmd) h =
      (h ++ failed_attempts cmd fails ++ tail, r) /\
    Forall (fun s => s <> 0x1 /\ Z.testbit s 7 = false) fails /\
    (((length fails < 3)%nat /\
      tail = sent_frame cmd ++ [EvRead CDB1_STATUS 0x1] /\ r = Ok 0x1) \/
     (exists s1 s2 s3, fails = [s1; s2; s3] /\ tail = [] /\ r = Ok s3) \/
     ((length fails < 3)%nat /\
      exists s k,
        tail = sent_frame cmd ++ EvRead CDB1_STATUS s :: repeat (EvSleep 1) k /\
        r = Diverge)).
Proof.
  unfold status_command, bind, lift, retry_loop.
  change (Z.to_nat MAX_TRY) with 3%nat.
  destruct (cdb_attempts_classified cmd 3 None h)
    as (fails & tail & r & E & Hf & _ & Hend).
  rewrite E.
  destruct Hend as [(Hl & _ & Ht & ->) | [(Hl & Ht & ->) | (Hl & k & Ht & -> & _)]].
  - exists fails, tail, (Ok 1). cbn [local_status]. unfold ret.
    split; [reflexivity|]. split; [exact Hf|]. left. auto.
  - destruct fails as [|s1 [|s2 [|s3 [|? ?]]]]; try discriminate Hl.
    exists [s1; s2; s3], tail, (Ok s3). cbn [map last local_status]. unfold ret.
    split; [reflexivity|]. split; [exact Hf|]. right. left. eauto 6.
  - exists fails, tail, Diverge.
    split; [reflexivity|]. split; [exact Hf|]. right. right. eauto 6.
Qed.

(** The same for every command that reaches its retry loop. *)
Lemma run_classified (c : command) (cmd : list Z) (h p : trace) :
  prelude_of c h = (h ++ p, Ok tt) ->
  frame_of c = Ok cmd ->
  exists fails tail r,
    run dev fuel c h = ((h ++ p) ++ failed_attempts cmd fails ++ tail, r) /\
    Forall (fun s => s <> 0x1 /\ Z.testbit s 7 = false) fails /\
    answered_by dev (h ++ p) cmd fails /\
    (((length fails < 3)%nat /\
      dev_read dev ((h ++ p) ++ failed_attempts cmd fails ++ sent_frame cmd)
               CDB1_STATUS = 0x1 /\
      exists rest ret,
        tail = sent_frame cmd ++ EvRead CDB1_STATUS 0x1 :: rest /\
        Forall quiet rest /\ r = Ok ret /\
        (returns_reply c = false -> rest = [] /\ ret = RetStatus 0x1)) \/
     (exists s1 s2 s3,
        fails = [s1; s2; s3] /\ Forall quiet tail /\
        if returns_reply c
        then exists rpl,
               r = Ok (RetReply rpl) /\
               read_cdb dev ((h ++ p) ++ failed_attempts cmd fails) =
                 ((h ++ p) ++ failed_attempts cmd fails ++ tail, Ok rpl)
        else tail = [] /\ r = Ok (RetStatus s3)) \/
     ((length fails < 3)%nat /\
      exists k,
        tail = sent_frame cmd
                 ++ EvRead CDB1_STATUS
                      (dev_read dev ((h ++ p) ++ failed_attempts cmd fails
                                       ++ sent_frame cmd) CDB1_STATUS)
                 :: repeat (EvSleep 1) k /\
        r = Diverge /\
        (fuel = 0%nat \/
         Z.testbit (dev_read dev ((h ++ p) ++ failed_attempts cmd fails
                                    ++ sent_frame cmd) CDB1_STATUS) 7 = true))).
Proof.
  intros Hpre Hfr. rewrite run_envelope. unfold envelope.
  unfold bind at 1. rewrite Hpre.
  unfold bind at 1, lift at 1. rewrite Hfr.
  unfold bind at 1, retry_loop. change (Z.to_nat MAX_TRY) with 3%nat.
  destruct (cdb_attempts_classified cmd 3 None (h ++ p))
    as (fails & tail & r & E & Hf & Ha & Hend).
  rewrite E.
  destruct Hend as [(Hl & Hd & Ht & ->) | [(Hl & Ht & ->) | (Hl & k & Ht & -> & Hd)]].
  - destruct (returns_reply c).
    + destruct (read_cdb_trace dev ((h ++ p) ++ failed_attempts cmd fails ++ tail))
        as (p3 & rpl & E3 & Q3).
      unfold reply_of, bind. rewrite E3. unfold ret.
      exists fails, (tail ++ p3), (Ok (RetReply rpl)).
      split; [now rewrite <- !app_assoc|]. split; [exact Hf|]. split; [exact Ha|].
      left. split; [exact Hl|]. split; [exact Hd|]. exists p3, (RetReply rpl).
      split; [rewrite Ht; now rewrite <- app_assoc|].
      split; [exact Q3|]. split; [reflexivity | discriminate].
    + unfold status_of, bind. cbn [local_status]. unfold ret.
      exists fails, tail, (Ok (RetStatus 1)).
      split; [reflexivity|]. split; [exact Hf|]. split; [exact Ha|].
      left. split; [exact Hl|]. split; [exact Hd|]. exists [], (RetStatus 1).
      split; [exact Ht|]. split; [constructor|]. auto.
  - destruct fails as [|s1 [|s2 [|s3 [|? ?]]]]; try discriminate Hl.
    subst tail. cbn [map last].
    destruct (returns_reply c).
    + destruct (read_cdb_trace dev ((h ++ p) ++ failed_attempts cmd [s1; s2; s3] ++ []))
        as (p3 & rpl & E3 & Q3).
      unfold reply_of, bind. rewrite E3. unfold ret.
      exists [s1; s2; s3], p3, (Ok (RetReply rpl)).
      rewrite app_nil_r in *.
      split; [now rewrite <- !app_assoc|]. split; [exact Hf|]. split; [exact Ha|].
      right. left. exists s1, s2, s3.
      split; [reflexivity|]. split; [exact Q3|].
      exists rpl. split; [reflexivity|].
      rewrite E3. now rewrite <- !app_assoc.
    + unfold status_of, bind. cbn [local_status]. unfold ret.
      exists [s1; s2; s3], [], (Ok (RetStatus s3)).
      split; [reflexivity|]. split; [exact Hf|]. split; [exact Ha|].
      right. left. exists s1, s2, s3.
      split; [reflexivity|]. split; [constructor|]. auto.
  - exists fails, tail, Diverge.
    split; [reflexivity|]. split; [exact Hf|]. split; [exact Ha|].
    right. right. eauto 6.
Qed.

End LoopShape.

Lemma at_most_three_attempts (dev : Device) (fuel : nat) (c : command) (h : trace) :
  exists l r, run dev fuel c h = (h ++ l, r) /\ (attempts_in l <= 3)%nat.
Proof.
  rewrite run_envelope. unfold envelope. unfold bind at 1.
  destruct (prelude_trace c h) as (p & rp & Ep & Np & Rp). rewrite Ep.
  pose proof (not_trigger_no_attempt p Np) as Ap.
  destruct Rp as [-> | [e ->]];
    [| exists p, (Raise e); split; [reflexivity | lia]].
  unfold bind at 1, lift at 1.
  destruct (frame_of c) as [cmd|e|];
    [| exists p, (Raise e); split; [reflexivity | lia]
     | exists p, Diverge; split; [reflexivity | lia]].
  unfold bind at 1, retry_loop. change (Z.to_nat MAX_TRY) with 3%nat.
  destruct (cdb_attempts_trace dev fuel 3 cmd None (h ++ p))
    as (l2 & r2 & E2 & A2 & _).
  rewrite E2. destruct r2 as [st|e|];
    [| exists (p ++ l2), (Raise e);
       split; [now rewrite <- app_assoc | rewrite attempts_in_app; lia]
     | exists (p ++ l2), Diverge;
       split; [now rewrite <- app_assoc | rewrite attempts_in_app; lia]].
  destruct (returns_reply c).
  - destruct (read_cdb_trace dev ((h ++ p) ++ l2)) as (p3 & rpl & E3 & Q3).
    unfold reply_of, bind. rewrite E3. unfold ret.
    exists (p ++ l2 ++ p3), (Ok (RetReply rpl)).
    split; [now rewrite <- !app_assoc|].
    rewrite !attempts_in_app, (quiet_no_attempt p3 Q3). lia.
  - unfold status_of, bind.
    destruct st as [s|]; cbn [local_status]; unfold ret, lift;
      eexists (p ++ l2), _;
      (split; [now rewrite <- app_assoc | rewrite attempts_in_app; lia]).
Qed.

Lemma prelude_makes_no_attempt (c : command) (h p : trace) (r : result unit) :
  prelude_of c h = (h ++ p, r) -> attempts_in p = 0%nat.
Proof.
  intros Hpre. destruct (prelude_trace c h) as (p' & rp & Ep & Np & _).
  rewrite Hpre in Ep. injection Ep as Ep _. apply app_inv_head in Ep.
  subst p'. now apply not_trigger_no_attempt.
Qed.

(** ** C4 *)

(** C4, as stated, fails for the commands that end in [return
    self.read_cdb()]: against a device whose status is always 0x45, the
    query-status command spends its three attempts and then returns the
    reply triple, the very value it returns against a device that reports
    success. *)
Lemma C4_reply_after_exhaustion :
  never_success (constant_device 0x45) /\
  never_busy (constant_device 0x45) /\
  attempts_in (fst (cmd0000h (constant_device 0x45) 1 [])) = 3%nat /\
  snd (cmd0000h (constant_device 0x45) 1 []) = Ok (2, 0x5A, [0xDE; 0xAD]) /\
  snd (cmd0000h (constant_device 0x01) 1 []) = Ok (2, 0x5A, [0xDE; 0xAD]).
Proof.
  split; [intros h; rewrite constant_device_status; discriminate|].
  split; [intros h; rewrite constant_device_status; reflexivity|].
  repeat split; vm_compute; reflexivity.
Qed.

(** C4 (amended): every command makes at most 3 attempts.  A command that
    reaches its retry loop (what precedes the frame raises nothing and the
    frame is built), run against a device that never reports a busy status
    and never reports 0x01, makes exactly 3 attempts, each one writing the
    frame (payload, then opcode), waiting 2 seconds, polling and reporting
    the failure.  A status-returning command (cmd0101h ... cmd010Ah) then
    returns the status polled in the third attempt, which is not 0x01, and
    does nothing more; a reply-returning command (cmd0000h ... cmd0100h)
    returns the reply that [read_cdb] reads after the third attempt.  A
    command whose frame cannot be built raises and makes no attempt. *)
Theorem C4_bounded_retry (dev : Device) (fuel : nat) (c : command) (h : trace) :
  (exists l r, run dev fuel c h = (h ++ l, r) /\ (attempts_in l <= 3)%nat) /\
  (forall p cmd,
     prelude_of c h = (h ++ p, Ok tt) ->
     frame_of c = Ok cmd ->
     never_busy dev -> never_success dev -> (0 < fuel)%nat ->
     exists s1 s2 s3 tail r,
       run dev fuel c h =
         ((h ++ p) ++ failed_attempts cmd [s1; s2; s3] ++ tail, r) /\
       failed_attempts cmd [s1; s2; s3] =
         (sent_frame cmd ++ failed_poll s1)
           ++ (sent_frame cmd ++ failed_poll s2)
           ++ (sent_frame cmd ++ failed_poll s3) /\
       attempts_in (p ++ failed_attempts cmd [s1; s2; s3] ++ tail) = 3%nat /\
       s3 <> 0x1 /\
       Forall quiet tail /\
       if returns_reply c
       then exists rpl,
              r = Ok (RetReply rpl) /\
              read_cdb dev ((h ++ p) ++ failed_attempts cmd [s1; s2; s3]) =
                ((h ++ p) ++ failed_attempts cmd [s1; s2; s3] ++ tail, Ok rpl)
       else tail = [] /\ r = Ok (RetStatus s3)) /\
  (forall p e,
     prelude_of c h = (h ++ p, Ok tt) ->
     frame_of c = Raise e ->
     run dev fuel c h = (h ++ p, Raise e) /\ attempts_in p = 0%nat).
Proof.
  split; [apply at_most_three_attempts|]. split.
  - intros p cmd Hpre Hfr Hb Hs Hfuel.
    destruct (run_classified dev fuel c cmd h p Hpre Hfr)
      as (fails & tail & r & E & Hf & _ & Hend).
    pose proof (prelude_makes_no_attempt c h p _ Hpre) as Hp.
    destruct Hend as [(_ & Hd & _) | [(s1 & s2 & s3 & -> & Q & Hout)
                     | (_ & k & _ & _ & [Hz | Hbusy])]].
    + exfalso. exact (Hs _ Hd).
    + exists s1, s2, s3, tail, r.
      split; [exact E|].
      split; [unfold failed_attempts; cbn [map concat]; now rewrite app_nil_r|].
      split.
      { rewrite !attempts_in_app, Hp, attempts_in_failed_attempts.
        destruct (returns_reply c).
        - rewrite (quiet_no_attempt tail Q). reflexivity.
        - destruct Hout as [-> _]. reflexivity. }
      inversion Hf as [|? ? _ Hf1]; subst.
      inversion Hf1 as [|? ? _ Hf2]; subst.
      inversion Hf2 as [|? ? [Hs3 _] _]; subst.
      split; [exact Hs3|]. split; [exact Q|]. exact Hout.
    + lia.
    + rewrite Hb in Hbusy. discriminate Hbusy.
  - intros p e Hpre Hfr.
    split; [|exact (prelude_makes_no_attempt c h p _ Hpre)].
    rewrite run_envelope. unfold envelope.
    unfold bind at 1. rewrite Hpre.
    unfold bind at 1, lift at 1. now rewrite Hfr.
Qed.

Lemma constant_0x45_never_busy : never_busy (constant_device 0x45).
Proof. intros h. rewrite constant_device_status. reflexivity. Defined.

Lemma constant_0x45_never_success : never_success (constant_device 0x45).
Proof. intros h. rewrite constant_device_status. discriminate. Defined.

Lemma C4_bounded_retry_witness :
  exists s1 s2 s3 tail r,
    run (constant_device 0x45) 1 (Cmd0101h 8 [] 4096) [] =
      (([] ++ [EvPrint (MsgImageSize 4096)])
         ++ failed_attempts [1; 1; 0; 0; 16; 221; 0; 0; 0; 0; 16; 0; 0; 0; 0; 0]
                            [s1; s2; s3] ++ tail, r) /\
    failed_attempts [1; 1; 0; 0; 16; 221; 0; 0; 0; 0; 16; 0; 0; 0; 0; 0]
                    [s1; s2; s3] =
      (sent_frame [1; 1; 0; 0; 16; 221; 0; 0; 0; 0; 16; 0; 0; 0; 0; 0]
         ++ failed_poll s1)
        ++ (sent_frame [1; 1; 0; 0; 16; 221; 0; 0; 0; 0; 16; 0; 0; 0; 0; 0]
              ++ failed_poll s2)
        ++ (sent_frame [1; 1; 0; 0; 16; 221; 0; 0; 0; 0; 16; 0; 0; 0; 0; 0]
              ++ failed_poll s3) /\
    attempts_in ([EvPrint (MsgImageSize 4096)]
                   ++ failed_attempts
                        [1; 1; 0; 0; 16; 221; 0; 0; 0; 0; 16; 0; 0; 0; 0; 0]
                        [s1; s2; s3] ++ tail) = 3%nat /\
    s3 <> 0x1 /\
    Forall quiet tail /\
    (tail = [] /\ r = Ok (RetStatus s3)).
Proof.
  apply (proj1 (proj2 (C4_bounded_retry (constant_device 0x45) 1
                         (Cmd0101h 8 [] 4096) []))
               [EvPrint (MsgImageSize 4096)]
               [1; 1; 0; 0; 16; 221; 0; 0; 0; 0; 16; 0; 0; 0; 0; 0]).
  - reflexivity.
  - reflexivity.
  - exact constant_0x45_never_busy.
  - exact constant_0x45_never_success.
  - lia.
Defined.

(** ** C6 *)

(** C6, as stated, fails: a payload of 117 bytes is not rejected; the frame
    is built and written, and the command returns the polled status. *)
Lemma C6_long_payload_is_sent :
  len (repeat 0xAB 117) = 117 /\
  snd (cmd0103h (constant_device 0x01) 1 0 (repeat 0xAB 117) []) = Ok 0x01 /\
  attempts_in (fst (cmd0103h (constant_device 0x01) 1 0 (repeat 0xAB 117) [])) = 1%nat /\
  length (filter is_write
            (fst (cmd0103h (constant_device 0x01) 1 0 (repeat 0xAB 117) []))) = 2%nat.
Proof. repeat split; vm_compute; reflexivity. Qed.

(** C6 (amended): for every payload longer than 116 bytes, [cmd0103h] does
    not reject it: it builds a frame that carries the payload unpadded after
    the 12 header bytes, with the LPL length byte [(len data + 4) mod 256],
    and every attempt it makes, at least one and at most three, starts by
    writing that frame to the device: payload write, opcode write, settle
    delay.  Nothing else is written. *)
Theorem C6_long_payload_not_rejected
        (dev : Device) (fuel : nat) (addr : Z) (data : list Z) (h : trace) :
  116 < len data ->
  exists frame fails tail r,
    cmd0103h_frame addr data = Ok frame /\
    skipn 12 frame = data /\
    nth 4 frame 0 = (len data + 4) mod 256 /\
    cmd0103h dev fuel addr data h =
      (h ++ concat (map (fun s =>
                      [EvWriteFlexible (0x9f * 128 + 130) (len frame - 2)
                                       (skipn 2 frame);
                       EvWriteFlexible (0x9f * 128 + 128) 2 (firstn 2 frame);
                       EvSleep 2;
                       EvRead CDB1_STATUS s;
                       EvPrint (MsgStatusFail s)]) fails)
         ++ tail, r) /\
    ((length fails = 3%nat /\ tail = []) \/
     ((length fails < 3)%nat /\
      exists q,
        tail = [EvWriteFlexible (0x9f * 128 + 130) (len frame - 2) (skipn 2 frame);
                EvWriteFlexible (0x9f * 128 + 128) 2 (firstn 2 frame);
                EvSleep 2] ++ q /\
        Forall quiet q)).
Proof.
  intros Hlen.
  pose proof (cmd0103h_frame_ok addr data) as Hf.
  rewrite ljust_long in Hf by lia. cbv zeta in Hf.
  match type of Hf with _ = Ok ?f => set (frame := f) in * end.
  destruct (status_command_classified dev fuel frame h)
    as (fails & tail & r & E & _ & Hend).
  exists frame, fails, tail, r.
  split; [exact Hf|].
  split; [reflexivity|].
  split; [subst frame; cbn [app list_update nth]; apply land_255_mod|].
  split; [unfold cmd0103h; rewrite Hf; exact E|].
  destruct Hend as [(Hl & -> & _) | [(s1 & s2 & s3 & -> & -> & _)
                   | (Hl & s & k & -> & _)]].
  - right. split; [exact Hl|]. exists [EvRead CDB1_STATUS 1].
    split; [reflexivity | repeat constructor].
  - left. auto.
  - right. split; [exact Hl|].
    exists (EvRead CDB1_STATUS s :: repeat (EvSleep 1) k).
    split; [reflexivity|]. constructor; [reflexivity | apply quiet_sleeps].
Qed.

Lemma C6_long_payload_not_rejected_witness :
  exists frame fails tail r,
    cmd0103h_frame 0 (repeat 0xAB 117) = Ok frame /\
    skipn 12 frame = repeat 0xAB 117 /\
    nth 4 frame 0 = (len (repeat 0xAB 117) + 4) mod 256 /\
    cmd0103h (constant_device 0x45) 1 0 (repeat 0xAB 117) [] =
      ([] ++ concat (map (fun s =>
                       [EvWriteFlexible (0x9f * 128 + 130) (len frame - 2)
                                        (skipn 2 frame);
                        EvWriteFlexible (0x9f * 128 + 128) 2 (firstn 2 frame);
                        EvSleep 2;
                        EvRead CDB1_STATUS s;
                        EvPrint (MsgStatusFail s)]) fails)
          ++ tail, r) /\
    ((length fails = 3%nat /\ tail = []) \/
     ((length fails < 3)%nat /\
      exists q,
        tail = [EvWriteFlexible (0x9f * 128 + 130) (len frame - 2) (skipn 2 frame);
                EvWriteFlexible (0x9f * 128 + 128) 2 (firstn 2 frame);
                EvSleep 2] ++ q /\
        Forall quiet q)).
Proof.
  apply (C6_long_payload_not_rejected (constant_device 0x45) 1 0 (repeat 0xAB 117) []).
  vm_compute. reflexivity.
Defined.

(** ** C9 *)

(** C9: in fixed-paging mode the page count computed by [cmd0104h] is
    2048 / 128 = 16 with no remainder, and the command starts with sixteen
    writes, for i = 0, 1, ..., 15 in this order: the 128 bytes of the data
    from index 128*i on ([data[128*i : 128*(i+1)]]), with length 128, at
    offset [(0xA0 + i) * 128 + 128].  Nothing else is staged: every later
    write of the command goes to the command channel of page 0x9f. *)
Theorem C9_fixed_paging_writes
        (dev : Device) (fuel : nat) (addr : Z) (data : list Z)
        (writelength : Z) (h : trace) :
  2048 / PAGE_LENGTH = 16 /\ 2048 mod PAGE_LENGTH = 0 /\
  exists rest r,
    cmd0104h dev fuel addr data false writelength h =
      (h ++ map (fun i : nat =>
                   EvWriteFlexible ((0xA0 + Z.of_nat i) * 128 + 128) 128
                                   (firstn 128 (skipn (128 * i) data)))
                (seq 0 16)
         ++ EvPrint MsgWriteTime :: rest, r) /\
    Forall (fun e => match e with
                     | EvWriteFlexible offset _ _ =>
                         offset = 0x9f * 128 + 130 \/ offset = 0x9f * 128 + 128
                     | _ => True
                     end) rest.
Proof.
  split; [reflexivity|]. split; [reflexivity|].
  unfold cmd0104h. unfold bind at 1. rewrite cmd0104h_stage_fixed.
  unfold bind at 1, print at 1, emit at 1.
  destruct (status_command_trace dev fuel (cmd0104h_frame addr)
              ((h ++ map (page_write data) (range 16)) ++ [EvPrint MsgWriteTime]))
    as (l & r & E & L).
  rewrite E. exists l, r. split; [|exact L].
  rewrite <- !app_assoc. reflexivity.
Qed.

(** ** C10 *)

(** C10: in every command that reaches its retry loop, each attempt polls
    the status, and the value the device answers counts as success exactly
    when it is the literal 0x01.  The run consists of failed attempts whose
    polled statuses, the answers of the device, all differ from 0x01
    (0x03 included): each is reported as a failure and, unless it was the
    third attempt, followed by a new attempt.  The loop ends before the
    third failure only on an answer equal to 0x01, or on a busy answer,
    for which the poll does not return. *)
Theorem C10_only_literal_0x01_is_success
        (dev : Device) (fuel : nat) (c : command) (cmd : list Z) (h p : trace) :
  prelude_of c h = (h ++ p, Ok tt) ->
  frame_of c = Ok cmd ->
  exists fails tail r,
    run dev (S fuel) c h = ((h ++ p) ++ failed_attempts cmd fails ++ tail, r) /\
    failed_attempts cmd fails =
      concat (map (fun s => sent_frame cmd
                              ++ [EvRead CDB1_STATUS s; EvPrint (MsgStatusFail s)])
                  fails) /\
    Forall (fun s => s <> 0x1) fails /\
    (forall pre s post,
       fails = pre ++ s :: post ->
       dev_read dev ((h ++ p) ++ failed_attempts cmd pre ++ sent_frame cmd)
                CDB1_STATUS = s) /\
    (((length fails < 3)%nat /\
      dev_read dev ((h ++ p) ++ failed_attempts cmd fails ++ sent_frame cmd)
               CDB1_STATUS = 0x1 /\
      exists rest ret,
        tail = sent_frame cmd ++ EvRead CDB1_STATUS 0x1 :: rest /\
        Forall quiet rest /\ r = Ok ret) \/
     (length fails = 3%nat /\ Forall quiet tail /\ exists ret, r = Ok ret) \/
     ((length fails < 3)%nat /\
      Z.testbit (dev_read dev ((h ++ p) ++ failed_attempts cmd fails
                                 ++ sent_frame cmd) CDB1_STATUS) 7 = true /\
      r = Diverge)).
Proof.
  intros Hpre Hfr.
  destruct (run_classified dev (S fuel) c cmd h p Hpre Hfr)
    as (fails & tail & r & E & Hf & Ha & Hend).
  exists fails, tail, r.
  split; [exact E|]. split; [reflexivity|].
  split; [eapply Forall_impl; [|exact Hf]; intros s [Hs _]; exact Hs|].
  split; [exact Ha|].
  destruct Hend as [(Hl & Hd & rest & ret & Ht & Q & Hr & _)
                   | [(s1 & s2 & s3 & -> & Q & Hout)
                   | (Hl & k & _ & Hr & [Hz | Hbusy])]].
  - left. split; [exact Hl|]. split; [exact Hd|]. eauto.
  - right. left. split; [reflexivity|]. split; [exact Q|].
    destruct (returns_reply c).
    + destruct Hout as (rpl & -> & _). eauto.
    + destruct Hout as (_ & ->). eauto.
  - discriminate Hz.
  - right. right. auto.
Qed.

Lemma C10_only_literal_0x01_is_success_witness :
  run (scripted_device [0x45; 0x03] 0x01 0 0 0 []) 1 Cmd0107h [] =
    (failed_attempts [1; 7; 0; 0; 0; 247; 0; 0] [0x45; 0x03]
       ++ sent_frame [1; 7; 0; 0; 0; 247; 0; 0] ++ [EvRead CDB1_STATUS 0x01],
     Ok (RetStatus 0x01)) /\
  exists fails tail r,
    run (scripted_device [0x45; 0x03] 0x01 0 0 0 []) 1 Cmd0107h [] =
      (([] ++ []) ++ failed_attempts [1; 7; 0; 0; 0; 247; 0; 0] fails ++ tail, r) /\
    failed_attempts [1; 7; 0; 0; 0; 247; 0; 0] fails =
      concat (map (fun s => sent_frame [1; 7; 0; 0; 0; 247; 0; 0]
                              ++ [EvRead CDB1_STATUS s; EvPrint (MsgStatusFail s)])
                  fails) /\
    Forall (fun s => s <> 0x1) fails /\
    (forall pre s post,
       fails = pre ++ s :: post ->
       dev_read (scripted_device [0x45; 0x03] 0x01 0 0 0 [])
                (([] ++ []) ++ failed_attempts [1; 7; 0; 0; 0; 247; 0; 0] pre
                   ++ sent_frame [1; 7; 0; 0; 0; 247; 0; 0])
                CDB1_STATUS = s) /\
    (((length fails < 3)%nat /\
      dev_read (scripted_device [0x45; 0x03] 0x01 0 0 0 [])
               (([] ++ []) ++ failed_attempts [1; 7; 0; 0; 0; 247; 0; 0] fails
                  ++ sent_frame [1; 7; 0; 0; 0; 247; 0; 0])
               CDB1_STATUS = 0x1 /\
      exists rest ret,
        tail = sent_frame [1; 7; 0; 0; 0; 247; 0; 0]
                 ++ EvRead CDB1_STATUS 0x1 :: rest /\
        Forall quiet rest /\ r = Ok ret) \/
     (length fails = 3%nat /\ Forall quiet tail /\ exists ret, r = Ok ret) \/
     ((length fails < 3)%nat /\
      Z.testbit (dev_read (scripted_device [0x45; 0x03] 0x01 0 0 0 [])
                          (([] ++ []) ++ failed_attempts [1; 7; 0; 0; 0; 247; 0; 0]
                                           fails
                             ++ sent_frame [1; 7; 0; 0; 0; 247; 0; 0])
                          CDB1_STATUS) 7 = true /\
      r = Diverge)).
Proof.
  split; [reflexivity|].
  apply (C10_only_literal_0x01_is_success
           (scripted_device [0x45; 0x03] 0x01 0 0 0 []) 0 Cmd0107h
           [1; 7; 0; 0; 0; 247; 0; 0] [] []).
  - reflexivity.
  - reflexivity.
Defined.

(** * Further properties of the CDB commands *)

(** ** Check codes of all frames *)

Lemma stamped_sum (body : list Z) :
  (5 < length body)%nat ->
  nth 5 body 0 = 0 ->
  sum_bytes (list_update body 5 (cdb_chkcode body)) mod 256 = 255.
Proof.
  intros Hlen Hz. rewrite sum_bytes_update by exact Hlen. rewrite Hz.
  unfold cdb_chkcode. rewrite land_255_mod.
  replace (sum_bytes body - 0 + (0xff - sum_bytes body mod 256))
    with (255 + sum_bytes body / 256 * 256)
    by (pose proof (Z.div_mod (sum_bytes body) 256 ltac:(lia)); lia).
  rewrite Z.mod_add by lia. reflexivity.
Qed.

Lemma bytearray_setitem_value_error (cmd : list Z) (i v : Z) :
  0 <= i < len cmd -> ~ is_byte v ->
  bytearray_setitem cmd i v = Raise ValueError.
Proof.
  unfold bytearray_setitem, is_byte; intros Hi Hv.
  destruct (i <? 0) eqn:E1; [apply Z.ltb_lt in E1; lia|].
  rewrite E1.
  destruct (len cmd <=? i) eqn:E2; [apply Z.leb_le in E2; lia|].
  cbn [orb].
  destruct (v <? 0) eqn:E3; [reflexivity|].
  destruct (256 <=? v) eqn:E4; [reflexivity|].
  apply Z.ltb_ge in E3. apply Z.leb_gt in E4. lia.
Qed.

Lemma cmd0101h_frame_rejects (startLPLsize : Z) (header : list Z) (imagesize : Z) :
  ~ 0 <= startLPLsize + 8 < 256 ->
  cmd0101h_frame startLPLsize header imagesize = Raise ValueError.
Proof.
  intros Hs. unfold cmd0101h_frame.
  rewrite (bytearray_setitem_value_error _ (132 - INIT_OFFSET) (startLPLsize + 8))
    by (first [exact Hs | vm_compute; split; [discriminate | reflexivity]]).
  reflexivity.
Qed.

Lemma struct_pack_BE_L_ok (addr : Z) :
  0 <= addr < 2 ^ 32 ->
  struct_pack_BE_L addr =
  Ok [Z.land (Z.shiftr addr 24) 0xff; Z.land (Z.shiftr addr 16) 0xff;
      Z.land (Z.shiftr addr 8) 0xff; Z.land addr 0xff].
Proof.
  intros Ha. unfold struct_pack_BE_L.
  destruct (addr <? 0) eqn:E1; [apply Z.ltb_lt in E1; lia|].
  destruct (2 ^ 32 <=? addr) eqn:E2; [apply Z.leb_le in E2; lia|].
  reflexivity.
Qed.

Lemma struct_pack_BE_L_rejects (addr : Z) :
  ~ 0 <= addr < 2 ^ 32 -> struct_pack_BE_L addr = Raise StructError.
Proof.
  intros Ha. unfold struct_pack_BE_L.
  destruct (addr <? 0) eqn:E1; [reflexivity|].
  destruct (2 ^ 32 <=? addr) eqn:E2; [reflexivity|].
  apply Z.ltb_ge in E1. apply Z.leb_gt in E2. lia.
Qed.

Lemma cmd0104h_frame_ok (addr : Z) :
  0 <= addr < 2 ^ 32 ->
  cmd0104h_frame addr =
  Ok (let body :=
        [0x01; 0x04; 0x08; 0x00; 0x04; 0x00; 0x00; 0x00;
         Z.land (Z.shiftr addr 24) 0xff; Z.land (Z.shiftr addr 16) 0xff;
         Z.land (Z.shiftr addr 8) 0xff; Z.land addr 0xff] in
      list_update body 5 (cdb_chkcode body)).
Proof.
  intros Ha. unfold cmd0104h_frame. rewrite struct_pack_BE_L_ok by exact Ha.
  cbn [rbind app]. rewrite stamp_ok; [reflexivity|].
  vm_compute. reflexivity.
Qed.

Lemma cmd0109h_frame_ok (mode : Z) :
  is_byte mode ->
  cmd0109h_frame mode =
  Ok (let body := [0x01; 0x09; 0x00; 0x00; 0x04; 0x00; 0x00; 0x00;
                   0x00; mode; 2; 0x00] in
      list_update body 5 (cdb_chkcode body)).
Proof.
  intros Hm. unfold cmd0109h_frame.
  rewrite bytearray_setitem_ok
    by (first [exact Hm | vm_compute; split; [discriminate | reflexivity]]).
  cbn [rbind]. change (Z.to_nat (137 - INIT_OFFSET)) with 9%nat. cbn [list_update].
  rewrite bytearray_setitem_ok
    by (vm_compute; split; [discriminate | reflexivity]).
  cbn [rbind]. change (Z.to_nat (138 - INIT_OFFSET)) with 10%nat. cbn [list_update].
  rewrite stamp_ok; [reflexivity|]. vm_compute. reflexivity.
Qed.

Lemma cmd0109h_frame_rejects (mode : Z) :
  ~ is_byte mode -> cmd0109h_frame mode = Raise ValueError.
Proof.
  intros Hm. unfold cmd0109h_frame.
  rewrite (bytearray_setitem_value_error _ (137 - INIT_OFFSET) mode)
    by (first [exact Hm | vm_compute; split; [discriminate | reflexivity]]).
  reflexivity.
Qed.

(** Whatever command builds a frame, the bytes of the frame add up to 0xFF
    modulo 256: the check code is in place in every frame that is sent. *)
Theorem every_frame_carries_its_check_code (c : command) (frame : list Z) :
  frame_of c = Ok frame ->
  sum_bytes frame mod 256 = 255.
Proof.
  assert (Hinj : forall f g : list Z, Ok f = Ok g -> g = f)
    by (intros f g E; congruence).
  destruct c; cbn [frame_of]; intros H;
    try (vm_compute in H; apply Hinj in H; subst frame; reflexivity).
  - destruct (Z_le_dec 0 (startLPLsize + 8)) as [H1|H1];
      [destruct (Z_lt_dec (startLPLsize + 8) 256) as [H2|H2]|];
      try (rewrite cmd0101h_frame_rejects in H by lia; discriminate H).
    rewrite cmd0101h_frame_ok in H by lia. apply Hinj in H. subst frame.
    cbv zeta. apply stamped_sum; [|reflexivity].
    rewrite length_app. simpl. lia.
  - rewrite cmd0103h_frame_ok in H. apply Hinj in H. subst frame.
    cbv zeta. apply stamped_sum; [|reflexivity].
    rewrite length_app. simpl. lia.
  - destruct (Z_le_dec 0 addr) as [H1|H1];
      [destruct (Z_lt_dec addr (2 ^ 32)) as [H2|H2]|];
      try (unfold cmd0104h_frame in H;
           rewrite struct_pack_BE_L_rejects in H by lia; discriminate H).
    rewrite cmd0104h_frame_ok in H by lia. apply Hinj in H. subst frame.
    cbv zeta. apply stamped_sum; [simpl; lia | reflexivity].
  - destruct (Z_le_dec 0 mode) as [H1|H1];
      [destruct (Z_lt_dec mode 256) as [H2|H2]|];
      try (rewrite cmd0109h_frame_rejects in H by (unfold is_byte; lia);
           discriminate H).
    rewrite cmd0109h_frame_ok in H by (unfold is_byte; lia).
    apply Hinj in H. subst frame.
    cbv zeta. apply stamped_sum; [simpl; lia | reflexivity].
Qed.

Lemma every_frame_carries_its_check_code_witness :
  sum_bytes [1; 9; 0; 0; 4; 238; 0; 0; 0; 1; 2; 0] mod 256 = 255.
Proof.
  apply (every_frame_carries_its_check_code (Cmd0109h 1)). reflexivity.
Defined.

(** ** Polling *)

(** [cdb1_chkstatus] returns exactly when the status it reads has the busy
    bit clear: it then returns that status after one register read and no
    sleep.  When the busy bit is set it sleeps one second per iteration and
    never returns, whatever number of iterations is followed. *)
Theorem chkstatus_returns_iff_idle (dev : Device) (fuel : nat) (h : trace) :
  (Z.testbit (dev_read dev h CDB1_STATUS) 7 = false ->
   cdb1_chkstatus dev (S fuel) h =
     (h ++ [EvRead CDB1_STATUS (dev_read dev h CDB1_STATUS)],
      Ok (dev_read dev h CDB1_STATUS))) /\
  (Z.testbit (dev_read dev h CDB1_STATUS) 7 = true ->
   cdb1_chkstatus dev fuel h =
     (h ++ EvRead CDB1_STATUS (dev_read dev h CDB1_STATUS)
        :: repeat (EvSleep 1) fuel, Diverge)).
Proof.
  split; intros Hb.
  - now apply cdb1_chkstatus_clear.
  - now apply cdb1_chkstatus_busy.
Qed.

Lemma chkstatus_returns_iff_idle_witness :
  cdb1_chkstatus (constant_device 0x45) 1 [] =
    ([EvRead CDB1_STATUS 0x45], Ok 0x45) /\
  cdb1_chkstatus (constant_device 0xC0) 3 [] =
    ([EvRead CDB1_STATUS 0xC0; EvSleep 1; EvSleep 1; EvSleep 1], Diverge).
Proof.
  split.
  - exact (proj1 (chkstatus_returns_iff_idle (constant_device 0x45) 0 []) eq_refl).
  - exact (proj2 (chkstatus_returns_iff_idle (constant_device 0xC0) 3 []) eq_refl).
Defined.

(** ** Arguments that do not fit the frame *)

(** [cmd0101h] with an LPL size that does not fit a byte prints the image
    size, raises ValueError and touches the device not at all. *)
Theorem cmd0101h_rejects_oversized_header
        (dev : Device) (fuel : nat) (startLPLsize : Z) (header : list Z)
        (imagesize : Z) (h : trace) :
  ~ 0 <= startLPLsize + 8 < 256 ->
  cmd0101h dev fuel startLPLsize header imagesize h =
    (h ++ [EvPrint (MsgImageSize imagesize)], Raise ValueError).
Proof.
  intros Hs. unfold cmd0101h, status_command, bind, print, emit, lift.
  now rewrite cmd0101h_frame_rejects.
Qed.

Lemma cmd0101h_rejects_oversized_header_witness :
  cmd0101h (constant_device 0x01) 1 250 [] 4096 [] =
    ([] ++ [EvPrint (MsgImageSize 4096)], Raise ValueError).
Proof.
  apply (cmd0101h_rejects_oversized_header (constant_device 0x01) 1 250 [] 4096 []).
  lia.
Defined.

(** [cmd0109h]: a mode that is a byte is placed at offset 137 (index 9),
    followed by the reset delay 2 at offset 138, with LPL length 4; a mode
    outside 0..255 raises ValueError before anything is written. *)
Theorem cmd0109h_mode_field (dev : Device) (fuel : nat) (mode : Z) (h : trace) :
  (is_byte mode ->
   exists frame,
     cmd0109h_frame mode = Ok frame /\
     len frame = 12 /\
     nth 4 frame 0 = 4 /\ nth 9 frame 0 = mode /\ nth 10 frame 0 = 2) /\
  (~ is_byte mode -> cmd0109h dev fuel mode h = (h, Raise ValueError)).
Proof.
  split; intros Hm.
  - eexists. split; [now apply cmd0109h_frame_ok|].
    cbv zeta. cbn [list_update nth]. repeat split.
  - unfold cmd0109h, status_command, bind, lift.
    now rewrite cmd0109h_frame_rejects.
Qed.

Lemma cmd0109h_mode_field_witness :
  (exists frame,
     cmd0109h_frame 0x03 = Ok frame /\
     len frame = 12 /\
     nth 4 frame 0 = 4 /\ nth 9 frame 0 = 0x03 /\ nth 10 frame 0 = 2) /\
  cmd0109h (constant_device 0x01) 1 256 [] = ([], Raise ValueError).
Proof.
  split.
  - apply (proj1 (cmd0109h_mode_field (constant_device 0x01) 1 0x03 [])).
    unfold is_byte. lia.
  - apply (proj2 (cmd0109h_mode_field (constant_device 0x01) 1 256 [])).
    unfold is_byte. lia.
Defined.

(** The frame of [cmd0104h] for an unsigned 32-bit address: twelve bytes,
    EPL length field (offsets 130-131) 0x0800 = 2048, the size of the staged
    unit, LPL length 4 and the address in four big-endian bytes at offsets
    136-139. *)
Theorem cmd0104h_frame_fields (addr : Z) :
  0 <= addr < 2 ^ 32 ->
  exists frame,
    cmd0104h_frame addr = Ok frame /\
    len frame = 12 /\
    firstn 2 frame = [0x01; 0x04] /\
    nth 2 frame 0 * 256 + nth 3 frame 0 = 2048 /\
    nth 4 frame 0 = 4 /\
    be32 (nth 8 frame 0) (nth 9 frame 0) (nth 10 frame 0) (nth 11 frame 0) = addr.
Proof.
  intros Ha. eexists. split; [now apply cmd0104h_frame_ok|].
  cbv zeta. cbn [list_update nth firstn]. repeat split.
  rewrite <- (be32_of_bytes addr Ha) at 5. reflexivity.
Qed.

Lemma cmd0104h_frame_fields_witness :
  exists frame,
    cmd0104h_frame 0x00020800 = Ok frame /\
    len frame = 12 /\
    firstn 2 frame = [0x01; 0x04] /\
    nth 2 frame 0 * 256 + nth 3 frame 0 = 2048 /\
    nth 4 frame 0 = 4 /\
    be32 (nth 8 frame 0) (nth 9 frame 0) (nth 10 frame 0) (nth 11 frame 0) =
      0x00020800.
Proof.
  apply (cmd0104h_frame_fields 0x00020800). lia.
Defined.

(** [cmd0104h] packs the address only after staging: with an address that
    is not an unsigned 32-bit value, fixed-paging mode has already written
    its sixteen pages when struct.error is raised, and no command is sent. *)
Theorem cmd0104h_bad_address_after_staging
        (dev : Device) (fuel : nat) (addr : Z) (data : list Z)
        (writelength : Z) (h : trace) :
  ~ 0 <= addr < 2 ^ 32 ->
  cmd0104h dev fuel addr data false writelength h =
    (h ++ map (page_write data) (range 16) ++ [EvPrint MsgWriteTime],
     Raise StructError) /\
  attempts_in (map (page_write data) (range 16) ++ [EvPrint MsgWriteTime]) = 0%nat.
Proof.
  intros Ha. split.
  - unfold cmd0104h. unfold bind at 1. rewrite cmd0104h_stage_fixed.
    unfold bind at 1, print at 1, emit at 1.
    unfold status_command, bind, lift, cmd0104h_frame.
    rewrite struct_pack_BE_L_rejects by exact Ha. cbn [rbind].
    now rewrite <- app_assoc.
  - apply not_trigger_no_attempt. apply Forall_app.
    split; [apply page_writes_not_trigger | repeat constructor].
Qed.

Lemma cmd0104h_bad_address_after_staging_witness :
  cmd0104h (constant_device 0x01) 1 (2 ^ 32) [0xAA] false 0 [] =
    ([] ++ map (page_write [0xAA]) (range 16) ++ [EvPrint MsgWriteTime],
     Raise StructError) /\
  attempts_in (map (page_write [0xAA]) (range 16) ++ [EvPrint MsgWriteTime]) = 0%nat.
Proof.
  apply (cmd0104h_bad_address_after_staging (constant_device 0x01) 1 (2 ^ 32)
           [0xAA] 0 []).
  lia.
Defined.

(** A payload of at most 116 bytes makes the frame of [cmd0103h] exactly
    128 bytes whatever the address: the payload write carries 126 bytes from
    byte offset 130, up to the last byte of page 0x9f. *)
Theorem cmd0103h_frame_fills_page
        (dev : Device) (fuel : nat) (addr : Z) (data : list Z) (h : trace) :
  len data <= 116 ->
  exists frame rest r,
    cmd0103h_frame addr data = Ok frame /\
    len frame = PAGE_LENGTH /\
    cmd0103h dev fuel addr data h =
      (h ++ [EvWriteFlexible (LPLPAGE * PAGE_LENGTH + CDB_WRITE_MSG_START) 126
                             (skipn 2 frame);
             EvWriteFlexible (LPLPAGE * PAGE_LENGTH + INIT_OFFSET) 2
                             (firstn 2 frame);
             EvSleep 2] ++ rest, r) /\
    CDB_WRITE_MSG_START + 126 = 2 * PAGE_LENGTH.
Proof.
  intros Hlen.
  pose proof (cmd0103h_frame_ok addr data) as Hf. cbv zeta in Hf.
  match type of Hf with _ = Ok ?f => set (frame := f) in * end.
  assert (Hl : len frame = 128).
  { subst frame. unfold len. rewrite length_list_update, length_app.
    pose proof (len_ljust data 116 0 Hlen) as Hj. unfold len in Hj.
    simpl length. lia. }
  destruct (status_command_starts dev fuel frame h) as (rest & r & E).
  exists frame, rest, r.
  split; [exact Hf|]. split; [exact Hl|]. split; [|reflexivity].
  unfold cmd0103h. rewrite Hf, E. unfold attempt_prefix.
  rewrite Hl. reflexivity.
Qed.

Lemma cmd0103h_frame_fills_page_witness :
  exists frame rest r,
    cmd0103h_frame 0 [] = Ok frame /\
    len frame = PAGE_LENGTH /\
    cmd0103h (constant_device 0x01) 1 0 [] [] =
      ([] ++ [EvWriteFlexible (LPLPAGE * PAGE_LENGTH + CDB_WRITE_MSG_START) 126
                              (skipn 2 frame);
              EvWriteFlexible (LPLPAGE * PAGE_LENGTH + INIT_OFFSET) 2
                              (firstn 2 frame);
              EvSleep 2] ++ rest, r) /\
    CDB_WRITE_MSG_START + 126 = 2 * PAGE_LENGTH.
Proof.
  apply (cmd0103h_frame_fills_page (constant_device 0x01) 1 0 [] []).
  vm_compute. discriminate.
Defined.

(** ** What the retry loop hands back *)

Lemma cdb1_chkstatus_returned (dev : Device) (fuel : nat) (h h' : trace) (s : Z) :
  cdb1_chkstatus dev fuel h = (h', Ok s) ->
  h' = h ++ [EvRead CDB1_STATUS s] /\ Z.testbit s 7 = false.
Proof.
  intros H.
  destruct (Z.testbit (dev_read dev h CDB1_STATUS) 7) eqn:Hb.
  - rewrite cdb1_chkstatus_busy in H by exact Hb. discriminate H.
  - destruct fuel as [|fuel].
    + unfold cdb1_chkstatus, bind, xcvr_read in H.
      rewrite py_bool_bit, Hb in H by lia. discriminate H.
    + rewrite cdb1_chkstatus_clear in H by exact Hb.
      injection H as <- <-. auto.
Qed.

Lemma last_status_from (l : trace) (acc : option Z) :
  fold_left (fun acc e => match e with
                          | EvRead CDB1_STATUS v => Some v
                          | _ => acc
                          end) l acc =
  match last_status l with
  | Some v => Some v
  | None => acc
  end.
Proof.
  unfold last_status. revert acc.
  induction l as [|e l IH]; intros acc; [reflexivity|].
  cbn [fold_left]. rewrite IH. symmetry. rewrite IH.
  destruct (fold_left _ l None); [reflexivity|].
  destruct e as [[] v| | | |]; reflexivity.
Qed.

Lemma last_status_app (a b : trace) :
  last_status (a ++ b) =
  match last_status b with
  | Some v => Some v
  | None => last_status a
  end.
Proof.
  unfold last_status at 1. rewrite fold_left_app. apply last_status_from.
Qed.

Lemma cdb_attempts_returned (dev : Device) (fuel : nat) (cmd : list Z) (tries : nat) :
  forall (status : option Z) (h l : trace) (st : option Z),
  cdb_attempts dev fuel tries cmd status h = (h ++ l, Ok st) ->
  (tries = 0%nat /\ l = [] /\ st = status) \/
  (exists s, st = Some s /\ last_status l = Some s /\
             Z.testbit s 7 = false /\
             (s = 0x1 \/ attempts_in l = tries)).
Proof.
  induction tries as [|tries IH]; intros status h l st H.
  - left. cbn in H. unfold ret in H. injection H as Hl <-.
    rewrite <- (app_nil_r h) in Hl at 1. apply app_inv_head in Hl. auto.
  - right. rewrite cdb_attempts_step in H.
    destruct (cdb1_chkstatus dev fuel (h ++ attempt_prefix cmd))
      as [h1 [s|e|]] eqn:E1; try discriminate H.
    apply cdb1_chkstatus_returned in E1. destruct E1 as [-> Hb].
    destruct (s =? 1) eqn:Es; cbn [negb] in H.
    + apply Z.eqb_eq in Es. subst s. injection H as Hl <-.
      rewrite <- app_assoc in Hl. apply app_inv_head in Hl. subst l.
      exists 1. repeat split; auto.
    + destruct (cdb_attempts_trace dev fuel tries cmd (Some s)
                  (((h ++ attempt_prefix cmd) ++ [EvRead CDB1_STATUS s])
                     ++ [EvPrint (MsgStatusFail s)]))
        as (l' & r' & E' & _ & _).
      rewrite E' in H. injection H as Hl ->.
      rewrite <- !app_assoc in Hl. apply app_inv_head in Hl. subst l.
      cbn [app].
      change (attempt_prefix cmd ++ EvRead CDB1_STATUS s
                :: EvPrint (MsgStatusFail s) :: l')
        with (failed_attempt cmd s ++ l').
      destruct (IH _ _ _ _ E') as [(-> & -> & ->) | (s' & -> & Hl' & Hb' & Hs')].
      * exists s. rewrite app_nil_r.
        split; [reflexivity|]. split; [reflexivity|]. split; [exact Hb|].
        right. reflexivity.
      * exists s'. split; [reflexivity|].
        split; [rewrite last_status_app, Hl'; reflexivity|].
        split; [exact Hb'|].
        destruct Hs' as [-> | Ha]; [now left | right].
        rewrite attempts_in_app, failed_attempt_count, Ha. reflexivity.
Qed.

(** A status handed back by a status-returning command is the one polled
    last; its busy bit is clear; and it is either 0x01 or the third attempt's
    status: a value other than 0x01 is only returned after three attempts. *)
Theorem returned_status_is_last_polled
        (dev : Device) (fuel : nat) (c : command) (h l : trace) (s : Z) :
  run dev fuel c h = (h ++ l, Ok (RetStatus s)) ->
  last_status l = Some s /\
  Z.testbit s 7 = false /\
  (s = 0x1 \/ attempts_in l = 3%nat).
Proof.
  rewrite run_envelope. unfold envelope. unfold bind at 1.
  destruct (prelude_trace c h) as (p & rp & Ep & Np & Rp). rewrite Ep.
  destruct Rp as [-> | [e ->]]; [|discriminate].
  unfold bind at 1, lift at 1.
  destruct (frame_of c) as [cmd|e|]; try discriminate.
  unfold bind at 1. unfold retry_loop. change (Z.to_nat MAX_TRY) with 3%nat.
  destruct (cdb_attempts_trace dev fuel 3 cmd None (h ++ p))
    as (l2 & r2 & E2 & _ & _).
  rewrite E2. destruct r2 as [st|e|]; try discriminate.
  destruct (returns_reply c).
  - unfold reply_of, bind.
    destruct (read_cdb dev ((h ++ p) ++ l2)) as [h3 [rpl|e|]]; discriminate.
  - unfold status_of, bind.
    destruct st as [s'|]; cbn [local_status]; unfold ret, lift; [|discriminate].
    intros H. injection H as Hl ->.
    rewrite <- app_assoc in Hl. apply app_inv_head in Hl. subst l.
    destruct (cdb_attempts_returned dev fuel cmd 3 None (h ++ p) l2 (Some s) E2)
      as [(H3 & _) | (s' & Es & Hl2 & Hb & Hs)]; [discriminate H3|].
    injection Es as <-.
    split; [rewrite last_status_app, Hl2; reflexivity|].
    split; [exact Hb|].
    destruct Hs as [-> | Ha]; [now left | right].
    rewrite attempts_in_app, (not_trigger_no_attempt p Np), Ha. reflexivity.
Qed.

Lemma returned_status_is_last_polled_witness :
  last_status (failed_attempt [1; 2; 0; 0; 0; 252; 0; 0] 0x45
               ++ attempt_prefix [1; 2; 0; 0; 0; 252; 0; 0]
               ++ [EvRead CDB1_STATUS 0x01]) = Some 0x01 /\
  Z.testbit 0x01 7 = false /\
  (0x01 = 0x1 \/
   attempts_in (failed_attempt [1; 2; 0; 0; 0; 252; 0; 0] 0x45
                ++ attempt_prefix [1; 2; 0; 0; 0; 252; 0; 0]
                ++ [EvRead CDB1_STATUS 0x01]) = 3%nat).
Proof.
  apply (returned_status_is_last_polled
           (scripted_device [0x45] 0x01 0 0 0 []) 1 Cmd0102h []).
  reflexivity.
Defined.

(** ** The loop stops at the first success *)





(** ** Where the commands write *)

Lemma lpl_only_in_window (l : trace) : Forall lpl_only l -> Forall starts_in_cdb_window l.
Proof.
  apply Forall_impl. intros [] H; simpl in *; auto.
  unfold LPLPAGE, PAGE_LENGTH, INIT_OFFSET, CDB_WRITE_MSG_START in *. lia.
Qed.

Lemma in_range_step_lt (stop step x : Z) :
  In x (range_step stop step) -> 0 <= x < stop.
Proof.
  unfold range_step. destruct (0 <? step) eqn:E; [|intros []].
  apply Z.ltb_lt in E. rewrite in_map_iff. intros (k & <- & Hk).
  apply in_seq in Hk.
  pose proof (Z.mul_div_le (stop + step - 1) step E).
  destruct (Z_lt_dec (stop + step - 1) 0) as [Hneg|Hpos].
  - pose proof (Z.div_lt_upper_bound (stop + step - 1) step 0 E ltac:(lia)).
    lia.
  - assert (0 <= (stop + step - 1) / step) by (apply Z.div_pos; lia).
    nia.
Qed.

Lemma page_writes_in_window (data : list Z) :
  Forall starts_in_cdb_window (map (page_write data) (range 16)).
Proof.
  apply Forall_forall. intros e He. apply in_map_iff in He.
  destruct He as (x & <- & Hx). apply in_range in Hx.
  unfold starts_in_cdb_window, page_write, LPLPAGE, PAGE_LENGTH, INIT_OFFSET. lia.
Qed.

Lemma section_writes_in_window (data : list Z) (writelength : Z) :
  Forall starts_in_cdb_window
         (map (section_write data writelength) (range_step 2048 writelength)).
Proof.
  apply Forall_forall. intros e He. apply in_map_iff in He.
  destruct He as (x & <- & Hx). apply in_range_step_lt in Hx.
  unfold section_write.
  destruct (x + writelength <=? 2048);
    unfold starts_in_cdb_window, LPLPAGE, PAGE_LENGTH, INIT_OFFSET; lia.
Qed.

Lemma prelude_window (c : command) (h : trace) :
  exists p r,
    prelude_of c h = (h ++ p, r) /\
    Forall starts_in_cdb_window p /\
    (match c with Cmd0104h _ _ _ _ => True | _ => Forall quiet p end).
Proof.
  destruct c; cbn [prelude_of];
    try (exists [], (Ok tt); unfold ret; rewrite app_nil_r;
         split; [reflexivity | split; constructor]).
  - exists [EvPrint (MsgImageSize imagesize)], (Ok tt).
    split; [reflexivity|]. split; repeat constructor.
  - unfold bind. destruct autopaging_flag.
    + destruct (Z.eq_dec writelength 0) as [->|Hw].
      * exists [], (Raise ZeroDivisionError). cbn. unfold lift.
        rewrite app_nil_r. repeat split; constructor.
      * rewrite cmd0104h_stage_auto by exact Hw.
        unfold print, emit. rewrite <- app_assoc.
        do 2 eexists. split; [reflexivity|]. split; [|exact I].
        apply Forall_app. split; [apply section_writes_in_window|].
        repeat constructor.
    + rewrite cmd0104h_stage_fixed.
      unfold print, emit. rewrite <- app_assoc.
      do 2 eexists. split; [reflexivity|]. split; [|exact I].
      apply Forall_app. split; [apply page_writes_in_window|].
      repeat constructor.
Qed.

Lemma envelope_after_prelude (dev : Device) (fuel : nat) (c : command)
      (h p : trace) (rp : result unit) :
  prelude_of c h = (h ++ p, rp) ->
  exists l2 r,
    envelope dev fuel c h = (h ++ p ++ l2, r) /\ Forall lpl_only l2.
Proof.
  intros Ep. unfold envelope. unfold bind at 1. rewrite Ep.
  destruct rp as [[]|e|];
    [| exists [], (Raise e); rewrite app_nil_r; auto
     | exists [], Diverge; rewrite app_nil_r; auto].
  unfold bind at 1, lift at 1.
  destruct (frame_of c) as [cmd|e|];
    [| exists [], (Raise e); rewrite app_nil_r; auto
     | exists [], Diverge; rewrite app_nil_r; auto].
  unfold bind at 1. unfold retry_loop. change (Z.to_nat MAX_TRY) with 3%nat.
  destruct (cdb_attempts_trace dev fuel 3 cmd None (h ++ p))
    as (l2 & r2 & E2 & _ & L2).
  rewrite E2. destruct r2 as [st|e|];
    [| exists l2, (Raise e); rewrite <- app_assoc; auto
     | exists l2, Diverge; rewrite <- app_assoc; auto].
  destruct (returns_reply c).
  - destruct (read_cdb_trace dev ((h ++ p) ++ l2)) as (p3 & rpl & E3 & Q3).
    unfold reply_of, bind. rewrite E3. unfold ret.
    exists (l2 ++ p3), (Ok (RetReply rpl)).
    split; [now rewrite <- !app_assoc|].
    apply Forall_app. split; [exact L2 | now apply quiet_lpl_only].
  - unfold status_of, bind.
    destruct st as [s|]; cbn [local_status]; unfold ret, lift;
      eexists l2, _; (split; [now rewrite <- app_assoc | exact L2]).
Qed.

(** Every write of every command is addressed inside the CDB window: its
    start offset lies between 0x9f*128+128 and 0xB0*128+128 (pages 0x9f to
    0xAF).  The extent of a write is not bounded by this: the last chunk of
    auto-paging mode can run past the window.  Every command but
    [cmd0104h] addresses only the two command offsets of page 0x9f. *)
Theorem writes_start_in_cdb_window
        (dev : Device) (fuel : nat) (c : command) (h : trace) :
  exists l r,
    run dev fuel c h = (h ++ l, r) /\
    Forall starts_in_cdb_window l /\
    (match c with Cmd0104h _ _ _ _ => True | _ => Forall lpl_only l end).
Proof.
  rewrite run_envelope.
  destruct (prelude_window c h) as (p & rp & Ep & Wp & Qp).
  destruct (envelope_after_prelude dev fuel c h p rp Ep) as (l2 & r & E & L2).
  exists (p ++ l2), r. split; [exact E|]. split.
  - apply Forall_app. split; [exact Wp | now apply lpl_only_in_window].
  - destruct c; try exact I;
      (apply Forall_app; split; [now apply quiet_lpl_only | exact L2]).
Qed.

(** ** What the staging loop carries *)

Lemma firstn_add_skipn {A : Type} (a b : nat) (l : list A) :
  firstn (a + b) l = firstn a l ++ firstn b (skipn a l).
Proof.
  revert l; induction a as [|a IH]; intros l; [reflexivity|].
  destruct l as [|x l]; simpl.
  - now rewrite firstn_nil.
  - now rewrite IH.
Qed.

Lemma full_chunks_concat (w : nat) (data : list Z) (n : nat) :
  concat (map (fun k => firstn w (skipn (k * w) data)) (seq 0 n)) =
  firstn (n * w) data.
Proof.
  induction n as [|n IH]; [reflexivity|].
  rewrite seq_S, map_app, concat_app, IH. cbn [map concat Nat.add].
  rewrite app_nil_r.
  replace (S n * w)%nat with (n * w + w)%nat by lia.
  now rewrite firstn_add_skipn.
Qed.

Lemma written_bytes_map {A : Type} (g : A -> event) (xs : list A) :
  written_bytes (map g xs) =
  concat (map (fun x => match g x with
                        | EvWriteFlexible _ _ data => data
                        | _ => []
                        end) xs).
Proof.
  unfold written_bytes. rewrite flat_map_concat_map, map_map. reflexivity.
Qed.

Lemma slice_as_chunk (data : list Z) (k : nat) (w : Z) :
  0 < w ->
  slice data (Z.of_nat k * w) (Z.of_nat k * w + w) =
  firstn (Z.to_nat w) (skipn (k * Z.to_nat w) data).
Proof.
  intros Hw. unfold slice. f_equal; [f_equal; lia|]. f_equal. nia.
Qed.

(** In fixed-paging mode the sixteen page writes carry, in order and
    without gap or overlap, the first 2048 bytes of the data: a shorter
    final unit is sent as it is, with empty writes for the pages it does
    not reach. *)
Theorem fixed_paging_carries_the_unit (data : list Z) (writelength : Z) (h : trace) :
  exists p,
    cmd0104h_stage data false writelength h = (h ++ p, Ok tt) /\
    length p = 16%nat /\
    written_bytes p = firstn 2048 data.
Proof.
  exists (map (page_write data) (range 16)).
  split; [apply cmd0104h_stage_fixed|]. split; [reflexivity|].
  unfold range. rewrite map_map, written_bytes_map.
  change (Z.to_nat 16) with 16%nat.
  replace (firstn 2048 data) with (firstn (16 * 128) data) by reflexivity.
  rewrite <- (full_chunks_concat 128 data 16).
  reflexivity.
Qed.

Lemma section_count (writelength : Z) :
  0 < writelength ->
  Z.to_nat ((2048 + writelength - 1) / writelength) =
  if 2048 mod writelength =? 0
  then Z.to_nat (2048 / writelength)
  else S (Z.to_nat (2048 / writelength)).
Proof.
  intros Hw.
  pose proof (Z.div_mod 2048 writelength ltac:(lia)) as Hdm.
  pose proof (Z.mod_pos_bound 2048 writelength Hw) as Hm.
  assert (Hq : 0 <= 2048 / writelength) by (apply Z.div_pos; lia).
  destruct (2048 mod writelength =? 0) eqn:E.
  - apply Z.eqb_eq in E. f_equal. symmetry.
    apply (Z.div_unique _ _ _ (writelength - 1)); lia.
  - apply Z.eqb_neq in E.
    rewrite <- Z2Nat.inj_succ by exact Hq. f_equal. symmetry.
    apply (Z.div_unique _ _ _ (2048 mod writelength - 1)); lia.
Qed.

(** In auto-paging mode with a positive write length the staging loop makes
    ceil(2048 / writelength) writes.  When the write length divides 2048
    they carry the first 2048 bytes of the data; when it does not, the last
    write takes everything from its offset to the end of the data, so that
    the writes carry the data whole, beyond 2048 bytes if it is longer. *)
Theorem auto_paging_carries_the_data (data : list Z) (writelength : Z) (h : trace) :
  0 < writelength ->
  exists p,
    cmd0104h_stage data true writelength h = (h ++ p, Ok tt) /\
    length p = Z.to_nat ((2048 + writelength - 1) / writelength) /\
    written_bytes p =
      if 2048 mod writelength =? 0 then firstn 2048 data else data.
Proof.
  intros Hw.
  exists (map (section_write data writelength) (range_step 2048 writelength)).
  split; [apply cmd0104h_stage_auto; lia|].
  unfold range_step. apply Z.ltb_lt in Hw as Hwb. rewrite Hwb.
  split; [now rewrite !length_map, length_seq|].
  rewrite map_map, written_bytes_map.
  pose proof (Z.div_mod 2048 writelength ltac:(lia)) as Hdm.
  pose proof (Z.mod_pos_bound 2048 writelength Hw) as Hm.
  assert (Hq : 0 <= 2048 / writelength) by (apply Z.div_pos; lia).
  set (q := Z.to_nat (2048 / writelength)).
  assert (Hfull : forall k, (k < q)%nat ->
            match section_write data writelength (Z.of_nat k * writelength) with
            | EvWriteFlexible _ _ d => d
            | _ => []
            end = firstn (Z.to_nat writelength)
                         (skipn (k * Z.to_nat writelength) data)).
  { intros k Hk. unfold section_write.
    replace (Z.of_nat k * writelength + writelength <=? 2048) with true
      by (symmetry; apply Z.leb_le; subst q; nia).
    now apply slice_as_chunk. }
  assert (Hhead : concat (map (fun k =>
              match section_write data writelength (Z.of_nat k * writelength) with
              | EvWriteFlexible _ _ d => d
              | _ => []
              end) (seq 0 q)) = firstn (q * Z.to_nat writelength) data).
  { rewrite <- full_chunks_concat. f_equal.
    apply map_ext_in. intros k Hk. apply in_seq in Hk. apply Hfull. lia. }
  rewrite section_count by exact Hw. fold q.
  destruct (2048 mod writelength =? 0) eqn:E.
  - apply Z.eqb_eq in E. rewrite Hhead. f_equal. subst q. nia.
  - apply Z.eqb_neq in E.
    rewrite seq_S, map_app, concat_app, Hhead. cbn [map concat Nat.add].
    rewrite app_nil_r. unfold section_write.
    replace (Z.of_nat q * writelength + writelength <=? 2048) with false
      by (symmetry; apply Z.leb_gt; subst q; nia).
    unfold slice_from.
    replace (Z.to_nat (Z.of_nat q * writelength))
      with (q * Z.to_nat writelength)%nat by nia.
    apply firstn_skipn.
Qed.

Lemma auto_paging_carries_the_data_witness :
  exists p,
    cmd0104h_stage (repeat 0x5A 2100) true 1000 [] = ([] ++ p, Ok tt) /\
    length p = Z.to_nat ((2048 + 1000 - 1) / 1000) /\
    written_bytes p =
      if 2048 mod 1000 =? 0 then firstn 2048 (repeat 0x5A 2100)
      else repeat 0x5A 2100.
Proof.
  apply (auto_paging_carries_the_data (repeat 0x5A 2100) 1000 []). lia.
Defined.

(** The degenerate write lengths of auto-paging mode: zero raises
    ZeroDivisionError before anything is written or sent; a negative one
    stages nothing at all, and the command is sent all the same. *)
Theorem auto_paging_degenerate_writelength
        (dev : Device) (fuel : nat) (addr : Z) (data : list Z)
        (writelength : Z) (h : trace) :
  (writelength = 0 ->
   cmd0104h dev fuel addr data true writelength h = (h, Raise ZeroDivisionError)) /\
  (writelength < 0 ->
   cmd0104h_stage data true writelength h = (h, Ok tt) /\
   (0 <= addr < 2 ^ 32 ->
    exists frame rest r,
      cmd0104h_frame addr = Ok frame /\
      cmd0104h dev fuel addr data true writelength h =
        (h ++ EvPrint MsgWriteTime :: attempt_prefix frame ++ rest, r))).
Proof.
  split.
  - intros ->. reflexivity.
  - intros Hw.
    assert (Hs : cmd0104h_stage data true writelength h = (h, Ok tt)).
    { rewrite cmd0104h_stage_auto by lia. unfold range_step.
      replace (0 <? writelength) with false by (symmetry; apply Z.ltb_ge; lia).
      cbn [map]. now rewrite app_nil_r. }
    split; [exact Hs|]. intros Ha.
    pose proof (cmd0104h_frame_ok addr Ha) as Hf. cbv zeta in Hf.
    match type of Hf with _ = Ok ?f => set (frame := f) in * end.
    destruct (status_command_starts dev fuel frame (h ++ [EvPrint MsgWriteTime]))
      as (rest & r & E).
    exists frame, rest, r. split; [exact Hf|].
    unfold cmd0104h. unfold bind at 1. rewrite Hs.
    unfold bind at 1, print at 1, emit at 1.
    rewrite Hf, E. now rewrite <- app_assoc.
Qed.

Lemma auto_paging_degenerate_writelength_witness :
  cmd0104h (constant_device 0x01) 1 0 [1; 2; 3] true 0 [] =
    ([], Raise ZeroDivisionError) /\
  cmd0104h_stage [1; 2; 3] true (-1) [] = ([], Ok tt).
Proof.
  split.
  - apply (proj1 (auto_paging_degenerate_writelength
                    (constant_device 0x01) 1 0 [1; 2; 3] 0 [])). reflexivity.
  - apply (proj2 (auto_paging_degenerate_writelength
                    (constant_device 0x01) 1 0 [1; 2; 3] (-1) [])). lia.
Defined.

(** * Properties of the register fields *)

(** ** Single bits *)

Lemma range_in (n x : Z) : 0 <= x < n -> In x (range n).
Proof.
  intros Hx. unfold range. apply in_map_iff. exists (Z.to_nat x).
  split; [lia|]. apply in_seq. lia.
Qed.

Lemma RegBitField_encode_head (f : RegBitField) (val : bool) (curr : Z)
      (rest : list Z) :
  bit_ro f = false ->
  RegBitField_encode f val (Some (curr :: rest)) =
  RegBitField_encode {| bit_name := String.EmptyString; bitpos := bitpos f;
                        bit_ro := false; bit_offset := None |}
                     val (Some [curr]).
Proof. destruct f; simpl. intros ->. reflexivity. Qed.

Lemma RegBitField_decode_head (f : RegBitField) (b : Z) (rest : list Z) :
  RegBitField_decode f (b :: rest) =
  RegBitField_decode {| bit_name := String.EmptyString; bitpos := bitpos f;
                        bit_ro := false; bit_offset := None |} [b].
Proof. destruct f; reflexivity. Qed.

(** All bytes and all bit positions of a byte, checked by evaluation. *)
Lemma low_bit_table :
  forallb (fun c => forallb (fun p => forallb (fun val =>
    let f := {| bit_name := String.EmptyString; bitpos := p;
                bit_ro := false; bit_offset := None |} in
    match RegBitField_encode f val (Some [c]) with
    | Ok [b] =>
        (0 <=? b) && (b <? 256) &&
        match RegBitField_decode f [b] with
        | Ok v => Bool.eqb v val
        | _ => false
        end &&
        forallb (fun i => (i =? p) || Bool.eqb (Z.testbit b i) (Z.testbit c i))
                (range 8)
    | _ => false
    end) [true; false]) (range 8)) (range 256) = true.
Proof. vm_compute. reflexivity. Qed.

(** [RegBitField] round trip: on a writable field for one of the eight bits
    of a byte, [encode] returns one byte in which that bit decodes to the
    value written and the seven other bits are those of the current
    state. *)
Theorem bit_field_round_trip (f : RegBitField) (val : bool) (curr : Z)
        (rest : list Z) :
  bit_ro f = false ->
  0 <= bitpos f < 8 ->
  is_byte curr ->
  exists b,
    RegBitField_encode f val (Some (curr :: rest)) = Ok [b] /\
    is_byte b /\
    RegBitField_decode f [b] = Ok val /\
    (forall i, 0 <= i < 8 -> i <> bitpos f -> Z.testbit b i = Z.testbit curr i).
Proof.
  intros Hro Hp Hc.
  rewrite RegBitField_encode_head by exact Hro.
  pose proof low_bit_table as T.
  rewrite forallb_forall in T. specialize (T curr (range_in 256 curr Hc)).
  rewrite forallb_forall in T. specialize (T (bitpos f) (range_in 8 _ Hp)).
  rewrite forallb_forall in T.
  assert (Hv : In val [true; false]) by (destruct val; simpl; auto).
  specialize (T val Hv). cbv zeta in T.
  destruct (RegBitField_encode _ val (Some [curr])) as [[|b [|? ?]]|e|];
    try discriminate T.
  apply andb_prop in T. destruct T as [T Hbits].
  apply andb_prop in T. destruct T as [T Hdec].
  apply andb_prop in T. destruct T as [Hlo Hhi].
  exists b. split; [reflexivity|].
  split; [unfold is_byte; apply Z.leb_le in Hlo; apply Z.ltb_lt in Hhi; lia|].
  split.
  - rewrite RegBitField_decode_head.
    destruct (RegBitField_decode _ [b]) as [v|e|]; try discriminate Hdec.
    apply Bool.eqb_prop in Hdec. now subst.
  - intros i Hi Hne. rewrite forallb_forall in Hbits.
    specialize (Hbits i (range_in 8 i Hi)).
    apply orb_prop in Hbits. destruct Hbits as [Heq | Heq].
    + apply Z.eqb_eq in Heq. contradiction.
    + now apply Bool.eqb_prop in Heq.
Qed.

Lemma bit_field_round_trip_witness :
  exists b,
    RegBitField_encode {| bit_name := String.EmptyString; bitpos := 6;
                          bit_ro := false; bit_offset := Some 8 |}
                       true (Some [0x81]) = Ok [b] /\
    is_byte b /\
    RegBitField_decode {| bit_name := String.EmptyString; bitpos := 6;
                          bit_ro := false; bit_offset := Some 8 |} [b] = Ok true /\
    (forall i, 0 <= i < 8 -> i <> 6 -> Z.testbit b i = Z.testbit 0x81 i).
Proof.
  apply (bit_field_round_trip
           {| bit_name := String.EmptyString; bitpos := 6;
              bit_ro := false; bit_offset := Some 8 |} true 0x81 []).
  - reflexivity.
  - simpl. lia.
  - unfold is_byte. lia.
Defined.

Lemma high_bit_table :
  forallb (fun c => forallb (fun p =>
    let f := {| bit_name := String.EmptyString; bitpos := 8 + p;
                bit_ro := false; bit_offset := None |} in
    match RegBitField_encode f true (Some [c]),
          RegBitField_encode f false (Some [c]),
          RegBitField_decode f [c] with
    | Raise ValueError, Ok [b], Ok false => b =? c
    | _, _, _ => false
    end) (range 56)) (range 256) = true.
Proof. vm_compute. reflexivity. Qed.

(** The constructor admits bit positions up to 63, but [encode] and
    [decode] work on the first byte only: for a position from 8 to 63,
    setting the bit raises ValueError, clearing it returns the current byte
    unchanged, and decoding reads False. *)
Theorem bit_field_beyond_first_byte (f : RegBitField) (curr : Z) (rest : list Z) :
  bit_ro f = false ->
  8 <= bitpos f < 64 ->
  is_byte curr ->
  RegBitField_init (bit_name f) (bitpos f) (bit_ro f) (bit_offset f) = Ok f /\
  RegBitField_encode f true (Some (curr :: rest)) = Raise ValueError /\
  RegBitField_encode f false (Some (curr :: rest)) = Ok [curr] /\
  RegBitField_decode f (curr :: rest) = Ok false.
Proof.
  intros Hro Hp Hc. split.
  { unfold RegBitField_init.
    replace (bitpos f <? 64) with true by (symmetry; apply Z.ltb_lt; lia).
    destruct f; reflexivity. }
  rewrite (RegBitField_encode_head f true) by exact Hro.
  rewrite (RegBitField_encode_head f false) by exact Hro.
  rewrite RegBitField_decode_head.
  pose proof high_bit_table as T.
  rewrite forallb_forall in T. specialize (T curr (range_in 256 curr Hc)).
  rewrite forallb_forall in T.
  assert (Hp' : 0 <= bitpos f - 8 < 56) by lia.
  specialize (T (bitpos f - 8) (range_in 56 _ Hp')). cbv zeta in T.
  replace (8 + (bitpos f - 8)) with (bitpos f) in T by lia.
  destruct (RegBitField_encode _ true (Some [curr])) as [?|[]|];
    try discriminate T.
  destruct (RegBitField_encode _ false (Some [curr])) as [[|b [|? ?]]|?|];
    try discriminate T.
  destruct (RegBitField_decode _ [curr]) as [[]|?|]; try discriminate T.
  apply Z.eqb_eq in T. subst b. repeat split.
Qed.

Lemma bit_field_beyond_first_byte_witness :
  RegBitField_encode {| bit_name := String.EmptyString; bitpos := 9;
                        bit_ro := false; bit_offset := None |}
                     true (Some [0x10]) = Raise ValueError.
Proof.
  refine (proj1 (proj2 (bit_field_beyond_first_byte
           {| bit_name := String.EmptyString; bitpos := 9;
              bit_ro := false; bit_offset := None |} 0x10 [] _ _ _))).
  - reflexivity.
  - simpl. lia.
  - unfold is_byte. lia.
Defined.

(** ** Registers with bit fields *)

Lemma update_bit_offsets_ok (offset size : Z) (fields : list RegBitField) :
  Forall (fun f => 0 <= bitpos f < size * 8) fields ->
  forall start,
  exists fields' start',
    update_bit_offsets offset size fields start = Ok (fields', start') /\
    map bitpos fields' = map bitpos fields /\
    map bit_name fields' = map bit_name fields /\
    Forall (fun f => bit_offset f = Some (offset + bitpos f / 8)) fields' /\
    start' <= start /\
    Forall (fun f => start' <= bitpos f) fields' /\
    (start' = start \/ exists f, In f fields' /\ bitpos f = start').
Proof.
  induction 1 as [|f rest Hf _ IH]; intros start.
  - exists [], start. cbn. repeat split; auto; lia.
  - cbn [update_bit_offsets].
    replace ((0 <=? bitpos f) && (bitpos f <? size * 8)) with true
      by (symmetry; apply andb_true_intro; split;
          [apply Z.leb_le | apply Z.ltb_lt]; lia).
    destruct (IH (Z.min (bitpos f) start))
      as (rest' & start' & E & Hb & Hn & Ho & Hle & Hall & Hmin).
    rewrite E. do 2 eexists. split; [reflexivity|].
    cbn [map bitpos bit_name].
    split; [now rewrite Hb|]. split; [now rewrite Hn|].
    split; [constructor; [reflexivity | exact Ho]|].
    split; [lia|].
    split; [constructor; [cbn; lia | exact Hall]|].
    destruct Hmin as [Hs | (g & Hg & Hgs)].
    + destruct (Z.min_spec (bitpos f) start) as [[_ Hm] | [_ Hm]].
      * right. eexists. split; [left; reflexivity|]. cbn. lia.
      * left. lia.
    + right. exists g. split; [right; exact Hg | exact Hgs].
Qed.

Lemma update_bit_offsets_rejects (offset size : Z) (fields : list RegBitField) :
  Exists (fun f => ~ 0 <= bitpos f < size * 8) fields ->
  forall start, update_bit_offsets offset size fields start = Raise AssertionError.
Proof.
  induction fields as [|f rest IH]; intros Hex start.
  - inversion Hex.
  - cbn [update_bit_offsets].
    destruct ((0 <=? bitpos f) && (bitpos f <? size * 8)) eqn:E; [|reflexivity].
    apply andb_prop in E. destruct E as [E1 E2].
    apply Z.leb_le in E1. apply Z.ltb_lt in E2.
    inversion Hex as [? ? Hbad | ? ? Hrest]; subst; [lia|].
    now rewrite IH.
Qed.

(** [RegField.__init__] over bit fields whose positions all lie in the
    register ([0 <= bitpos < size * 8]) succeeds: it keeps their names and
    positions, gives each the offset of the byte that holds its bit, inside
    the register, and sets [start_bitpos] to the smallest position (to
    [size * 8 - 1] when there is none).  One position outside the register
    makes the constructor fail with AssertionError. *)
Theorem reg_field_init_places_bits
        (name : String.string) (offset : Z) (fields : list RegBitField)
        (ro : bool) (size : Z) :
  (Forall (fun f => 0 <= bitpos f < size * 8) fields ->
   exists r,
     RegField_init name offset fields ro size = Ok r /\
     map bitpos (reg_fields r) = map bitpos fields /\
     map bit_name (reg_fields r) = map bit_name fields /\
     (forall f, In f (reg_fields r) ->
        bit_offset f = Some (offset + bitpos f / 8) /\
        offset <= offset + bitpos f / 8 < offset + size /\
        start_bitpos r <= bitpos f) /\
     start_bitpos r <= size * 8 - 1 /\
     (start_bitpos r = size * 8 - 1 \/
      exists f, In f (reg_fields r) /\ bitpos f = start_bitpos r)) /\
  (Exists (fun f => ~ 0 <= bitpos f < size * 8) fields ->
   RegField_init name offset fields ro size = Raise AssertionError).
Proof.
  split.
  - intros Hall.
    destruct (update_bit_offsets_ok offset size fields Hall (size * 8 - 1))
      as (fields' & start' & E & Hb & Hn & Ho & Hle & Hge & Hmin).
    unfold RegField_init. rewrite E. eexists. split; [reflexivity|].
    cbn [reg_fields start_bitpos].
    split; [exact Hb|]. split; [exact Hn|]. split; [|split; assumption].
    intros f Hf.
    rewrite Forall_forall in Ho, Hge.
    split; [now apply Ho|]. split; [|now apply Hge].
    assert (Hr : 0 <= bitpos f < size * 8).
    { assert (Hin : In (bitpos f) (map bitpos fields))
        by (rewrite <- Hb; now apply in_map).
      apply in_map_iff in Hin. destruct Hin as (g & <- & Hg).
      rewrite Forall_forall in Hall. now apply Hall. }
    assert (0 <= bitpos f / 8) by (apply Z.div_pos; lia).
    assert (bitpos f / 8 < size) by (apply Z.div_lt_upper_bound; lia).
    lia.
  - intros Hex. unfold RegField_init.
    now rewrite update_bit_offsets_rejects.
Qed.

Lemma reg_field_init_places_bits_witness :
  exists r,
    RegField_init String.EmptyString 37
      [{| bit_name := String.EmptyString; bitpos := 7; bit_ro := true;
          bit_offset := None |};
       {| bit_name := String.EmptyString; bitpos := 9; bit_ro := true;
          bit_offset := None |}] true 2 = Ok r /\
    start_bitpos r = 7 /\
    map bit_offset (reg_fields r) = [Some 37; Some 38].
Proof.
  destruct (proj1 (reg_field_init_places_bits String.EmptyString 37
      [{| bit_name := String.EmptyString; bitpos := 7; bit_ro := true;
          bit_offset := None |};
       {| bit_name := String.EmptyString; bitpos := 9; bit_ro := true;
          bit_offset := None |}] true 2)) as (r & E & _).
  - repeat constructor; simpl; lia.
  - exists r. split; [exact E|].
    vm_compute in E. injection E as <-. split; reflexivity.
Defined.

Lemma testbit_shiftl_1 (p i : Z) :
  0 <= p -> 0 <= i -> Z.testbit (Z.shiftl 1 p) i = (i =? p).
Proof.
  intros Hp Hi. rewrite Z.shiftl_spec by exact Hi.
  destruct (Z.eqb_spec i p) as [->|Hne].
  - now rewrite Z.sub_diag.
  - destruct (Z_lt_dec i p).
    + apply Z.testbit_neg_r. lia.
    + apply Z.bits_above_log2; [lia|]. simpl. lia.
Qed.

Lemma bitmask_loop_bits (fields : list RegBitField) :
  Forall (fun f => 0 <= bitpos f) fields ->
  forall mask,
  exists m,
    bitmask_loop fields mask = Ok m /\
    forall i, 0 <= i ->
      Z.testbit m i = Z.testbit mask i || existsb (fun f => bitpos f =? i) fields.
Proof.
  induction 1 as [|f rest Hf _ IH]; intros mask.
  - exists mask. split; [reflexivity|]. intros i _. cbn. now rewrite orb_false_r.
  - cbn [bitmask_loop].
    replace (bitpos f <? 0) with false by (symmetry; apply Z.ltb_ge; lia).
    destruct (IH (Z.lor mask (Z.shiftl 1 (bitpos f)))) as (m & E & Hbits).
    exists m. split; [exact E|]. intros i Hi.
    rewrite Hbits by exact Hi. rewrite Z.lor_spec, testbit_shiftl_1 by lia.
    cbn [existsb]. rewrite (Z.eqb_sym (bitpos f) i). now rewrite orb_assoc.
Qed.

(** [get_bitmask] is None exactly for a register without bit fields;
    otherwise the mask has bit [i] set exactly when one of the fields sits
    at position [i]. *)
Theorem bitmask_marks_the_fields (r : RegField) :
  Forall (fun f => 0 <= bitpos f) (reg_fields r) ->
  (reg_fields r = [] /\ get_bitmask r = Ok None) \/
  (reg_fields r <> [] /\
   exists m,
     get_bitmask r = Ok (Some m) /\
     forall i, 0 <= i ->
       (Z.testbit m i = true <-> exists f, In f (reg_fields r) /\ bitpos f = i)).
Proof.
  intros Hall. unfold get_bitmask.
  destruct (reg_fields r) as [|f rest] eqn:Ef; [left; auto|].
  right. split; [discriminate|].
  destruct (bitmask_loop_bits (f :: rest) Hall 0) as (m & E & Hbits).
  rewrite E. exists m. split; [reflexivity|].
  intros i Hi. rewrite Hbits by exact Hi. rewrite Z.bits_0. cbn [orb].
  rewrite existsb_exists. split.
  - intros (g & Hg & Hgi). apply Z.eqb_eq in Hgi. eauto.
  - intros (g & Hg & Hgi). exists g. split; [exact Hg | now apply Z.eqb_eq].
Qed.

Lemma bitmask_marks_the_fields_witness :
  get_bitmask {| reg_name := String.EmptyString; reg_offset := 37;
                 reg_ro := true;
                 reg_fields := [{| bit_name := String.EmptyString; bitpos := 7;
                                   bit_ro := true; bit_offset := Some 37 |};
                                {| bit_name := String.EmptyString; bitpos := 6;
                                   bit_ro := true; bit_offset := Some 37 |}];
                 reg_size := 1; start_bitpos := 6 |} = Ok (Some 0xC0).
Proof.
  destruct (bitmask_marks_the_fields
              {| reg_name := String.EmptyString; reg_offset := 37;
                 reg_ro := true;
                 reg_fields := [{| bit_name := String.EmptyString; bitpos := 7;
                                   bit_ro := true; bit_offset := Some 37 |};
                                {| bit_name := String.EmptyString; bitpos := 6;
                                   bit_ro := true; bit_offset := Some 37 |}];
                 reg_size := 1; start_bitpos := 6 |})
    as [[H _] | [_ (m & E & _)]].
  - repeat constructor; simpl; lia.
  - discriminate H.
  - reflexivity.
Defined.

(** ** Numbers held in a range of bits *)

Lemma field_at_position (fields : list RegBitField) (lo k : nat) (j : Z) :
  (forall i, In i (map bitpos fields) <->
             Z.of_nat lo <= i < Z.of_nat (lo + k)) ->
  existsb (fun f => bitpos f =? j) fields =
  (Z.of_nat lo <=? j) && (j <? Z.of_nat (lo + k)).
Proof.
  intros Hpos. apply Bool.eq_iff_eq_true.
  rewrite existsb_exists, andb_true_iff, Z.leb_le, Z.ltb_lt. split.
  - intros (f & Hf & Hfj). apply Z.eqb_eq in Hfj. subst j.
    apply Hpos. now apply in_map.
  - intros Hj. apply Hpos in Hj. apply in_map_iff in Hj.
    destruct Hj as (f & Hfj & Hf).
    exists f. split; [exact Hf | now apply Z.eqb_eq].
Qed.

(** A [NumberRegField] without scale, built over bit fields that sit,
    listed in any order, at the positions lo, lo+1, ..., lo+n inside the
    register, decodes a buffer of the size of its format to the number held
    in those bits: the unpacked value shifted right by lo, modulo
    2^(n+1). *)
Theorem number_field_decodes_bit_range
        (name : String.string) (offset : Z) (fields : list RegBitField)
        (ro : bool) (size : Z) (fmt : struct_format) (raw_data : list Z)
        (lo n : nat) :
  (forall i, In i (map bitpos fields) <->
             Z.of_nat lo <= i < Z.of_nat (lo + S n)) ->
  Z.of_nat (lo + S n) <= size * 8 ->
  length raw_data = calcsize fmt ->
  exists reg,
    RegField_init name offset fields ro size = Ok reg /\
    start_bitpos reg = Z.of_nat lo /\
    NumberRegField_decode
      {| num_reg := reg; num_scale := None; num_format := fmt |} raw_data =
    Ok (Int ((be_value raw_data / 2 ^ Z.of_nat lo) mod 2 ^ Z.of_nat (S n))).
Proof.
  intros Hset Hsize Hlen.
  assert (Hall : Forall (fun f => 0 <= bitpos f < size * 8) fields).
  { apply Forall_forall. intros f Hf.
    assert (Hin : In (bitpos f) (map bitpos fields)) by (now apply in_map).
    apply Hset in Hin. lia. }
  destruct (update_bit_offsets_ok offset size fields Hall (size * 8 - 1))
    as (fields' & start' & E & Hb & _ & _ & Hle & Hge & Hmin).
  assert (Hset' : forall i, In i (map bitpos fields') <->
                            Z.of_nat lo <= i < Z.of_nat (lo + S n))
    by (intros i; rewrite Hb; apply Hset).
  assert (Hpos' : forall f, In f fields' ->
                    Z.of_nat lo <= bitpos f < Z.of_nat (lo + S n)).
  { intros f Hf. apply Hset'. now apply in_map. }
  assert (Hlo : exists f, In f fields' /\ bitpos f = Z.of_nat lo).
  { assert (Hin : In (Z.of_nat lo) (map bitpos fields')) by (apply Hset'; lia).
    apply in_map_iff in Hin. destruct Hin as (f & Hf & Hin). eauto. }
  assert (Hstart : start' = Z.of_nat lo).
  { destruct Hlo as (f0 & Hf0 & Hf0lo).
    rewrite Forall_forall in Hge. pose proof (Hge f0 Hf0) as Hs0.
    destruct Hmin as [-> | (g & Hg & Hgs)].
    - lia.
    - specialize (Hpos' g Hg). lia. }
  unfold RegField_init. rewrite E. eexists. split; [reflexivity|].
  cbn [start_bitpos]. split; [exact Hstart|].
  unfold NumberRegField_decode, struct_unpack.
  cbn [num_format num_reg num_scale].
  rewrite Hlen, Nat.eqb_refl. cbn [rbind].
  unfold get_bitmask. cbn [reg_fields start_bitpos].
  assert (Hnn : Forall (fun f => 0 <= bitpos f) fields').
  { apply Forall_forall. intros f Hf. specialize (Hpos' f Hf). lia. }
  destruct (bitmask_loop_bits fields' Hnn 0) as (m & Em & Hbits).
  destruct fields' as [|f0 rest0] eqn:Ef;
    [destruct Hlo as (f & [] & _)|].
  rewrite <- Ef in *. rewrite Em. cbn [rbind].
  rewrite Hstart.
  replace (Z.of_nat lo <? 0) with false by (symmetry; apply Z.ltb_ge; lia).
  cbn [rbind]. do 2 f_equal.
  rewrite <- Z.land_ones, <- Z.shiftr_div_pow2 by lia.
  apply Z.bits_inj'. intros i Hi.
  rewrite Z.shiftr_spec, !Z.land_spec, Z.shiftr_spec by exact Hi.
  rewrite Hbits by lia. rewrite Z.bits_0. cbn [orb].
  rewrite (field_at_position _ lo (S n)) by exact Hset'.
  rewrite Z.testbit_ones_nonneg by lia.
  f_equal.
  destruct (Z.ltb_spec i (Z.of_nat (S n)));
    destruct (Z.leb_spec (Z.of_nat lo) (i + Z.of_nat lo));
    destruct (Z.ltb_spec (i + Z.of_nat lo) (Z.of_nat (lo + S n)));
    try reflexivity; lia.
Qed.

Lemma number_field_decodes_bit_range_witness :
  exists reg,
    RegField_init String.EmptyString 37
      (map (fun p => {| bit_name := String.EmptyString; bitpos := p;
                        bit_ro := true; bit_offset := None |}) [7; 6; 5; 4])
      true 1 = Ok reg /\
    start_bitpos reg = Z.of_nat 4 /\
    NumberRegField_decode
      {| num_reg := reg; num_scale := None; num_format := Fmt_B |} [0xA5] =
    Ok (Int ((be_value [0xA5] / 2 ^ Z.of_nat 4) mod 2 ^ Z.of_nat 4)).
Proof.
  apply (number_field_decodes_bit_range String.EmptyString 37
           (map (fun p => {| bit_name := String.EmptyString; bitpos := p;
                             bit_ro := true; bit_offset := None |})
                [7; 6; 5; 4]) true 1 Fmt_B [0xA5] 4 3).
  - intros i. simpl. lia.
  - simpl. lia.
  - reflexivity.
Defined.

(** ** Groups of fields *)

Lemma fold_max_bounds {A : Type} (g : A -> Z) (l : list A) :
  forall a,
    a <= fold_left (fun e x => Z.max e (g x)) l a /\
    (forall x, In x l -> g x <= fold_left (fun e x => Z.max e (g x)) l a) /\
    (fold_left (fun e x => Z.max e (g x)) l a = a \/
     exists x, In x l /\ fold_left (fun e x => Z.max e (g x)) l a = g x).
Proof.
  induction l as [|y l IH]; intros a; cbn [fold_left].
  - split; [lia|]. split; [intros x []|]. now left.
  - destruct (IH (Z.max a (g y))) as (H1 & H2 & H3).
    split; [lia|]. split.
    + intros x [<- | Hx]; [lia | now apply H2].
    + destruct H3 as [H3 | (x & Hx & H3)].
      * destruct (Z.max_spec a (g y)) as [[_ Hm] | [_ Hm]].
        -- right. exists y. split; [now left | lia].
        -- left. lia.
      * right. exists x. split; [now right | exact H3].
Qed.

(** A [RegGroupField] takes the offset of its first member.  Its size is
    never negative, reaches the end of every member, and is the distance
    from the start to the farthest member end (0 when no member ends after
    the start).  The slice [decode] cuts for a member that does not start
    before the group and has a non-negative size lies inside
    [0, get_size]; that of the first member starts at 0. *)
Theorem group_size_covers_members
        (name : String.string) (first : XcvrField) (rest : list XcvrField)
        (ro : bool) :
  exists g,
    RegGroupField_init name (first :: rest) ro = Ok g /\
    get_offset g = get_offset first /\
    0 <= get_size g /\
    fst (member_slice (get_offset g) first) = 0 /\
    (forall m, In m (first :: rest) ->
       snd (member_slice (get_offset g) m) <= get_size g /\
       (get_offset g <= get_offset m -> 0 <= get_size m ->
        0 <= fst (member_slice (get_offset g) m)
          <= snd (member_slice (get_offset g) m))) /\
    (get_size g = 0 \/
     exists m, In m (first :: rest) /\
               get_size g = snd (member_slice (get_offset g) m)).
Proof.
  eexists. split; [reflexivity|].
  cbn [get_offset]. split; [reflexivity|].
  unfold member_slice. cbn [fst snd].
  change (get_size (FGroup name (get_offset first) ro (first :: rest)))
    with (fold_left (fun e x => Z.max e (get_offset x + get_size x))
                    (first :: rest) (get_offset first) - get_offset first).
  destruct (fold_max_bounds (fun x => get_offset x + get_size x)
              (first :: rest) (get_offset first)) as (H1 & H2 & H3).
  split; [lia|]. split; [lia|]. split.
  - intros m Hm. specialize (H2 m Hm). cbv beta in H2. split; lia.
  - destruct H3 as [H3 | (m & Hm & H3)].
    + left. lia.
    + right. exists m. split; [exact Hm | lia].
Qed.
